(** * The MCP demo client of [examples/demo_host.py]

    A shallow embedding of the class [MCPClient] (start_server,
    send_request, call_tool, stop_server) together with the parts of the
    Python runtime it calls: [json.dumps], [json.loads], [str.encode],
    [bytes.decode] and the [asyncio] subprocess streams.

    Conventions.
    - A Python [str] is a list of code points, a [bytes] object a list of
      bytes, an [int] an unbounded integer.
    - Floating point arithmetic lies outside the embedding: the float type and
      its two conversions are the fields of the class [PyFloat].
    - A coroutine is a function from the object's state to an outcome, the
      state left behind and the list of system-level events it performed.
      What the child process answers is an explicit argument ([reply]).
    - The library functions follow CPython 3.11: [json.encoder],
      [json.decoder] and [json.scanner] for JSON, [asyncio.streams],
      [asyncio.subprocess], [asyncio.base_subprocess] and
      [asyncio.unix_events] for the pipes.
    - [json.dumps] is modelled where it returns.  It raises on an [int] of
      more than 4300 digits and on nesting beyond the recursion limit, before
      anything is written; [encodable] bounds both, and what is stated about
      the line a call writes is stated for a request that satisfies it.
    - [print] is modelled where it shows what the child sent: standard
      output encodes as UTF-8, so a text with a surrogate raises
      [UnicodeEncodeError].  The literals of the source print.
    - The child's exit and the closing of its transport are one event
      ([finished]).  In asyncio the transport is closed by a callback that
      runs some time after the exit; what [terminate], [write] and [drain]
      do in between is not stated anywhere below.  After [stop_server] has
      returned the transport is closed.
    - The bytes the child emits during a call are in the buffer at once.
      This is how asyncio hands over lines within the limit of the stream;
      of a longer line it drops what had arrived when the limit was passed,
      so only the outcome of such a read is stated.
    - Not modelled: the texts and positions of error messages, the limits
      of the interpreter on what [json.loads] reads (recursion depth, digits
      of an [int]), and back-pressure on the child's standard input. *)

From Stdlib Require Import List ZArith NArith Lia Bool String Ascii Sorted.
From Stdlib.Strings Require Import Byte.
From Stdlib Require Import DecimalN DecimalZ.
Import ListNotations.

Set Implicit Arguments.
Set Warnings "-register-all".

(** ** Strings and bytes *)

Definition str := list N.
Definition bytes := list byte.

(** The [str] written by an ASCII literal of the source. *)
Definition py (s : string) : str :=
  map N_of_ascii (list_ascii_of_string s).

(** The [bytes] of an ASCII literal. *)
Definition bytes_of (s : string) : bytes := list_byte_of_string s.

Fixpoint str_eqb (a b : str) : bool :=
  match a, b with
  | [], [] => true
  | x :: a', y :: b' => N.eqb x y && str_eqb a' b'
  | _, _ => false
  end.

(** [prefix.startswith]: is [p] a prefix of [s]? *)
Fixpoint startswith (s p : str) : bool :=
  match p, s with
  | [], _ => true
  | x :: p', y :: s' => N.eqb x y && startswith s' p'
  | _ :: _, [] => false
  end.

(** [needle in s] on two strings: substring test. *)
Fixpoint str_contains (s needle : str) : bool :=
  startswith s needle ||
  match s with
  | [] => false
  | _ :: s' => str_contains s' needle
  end.

(** Characters from space to tilde: what [ESCAPE_ASCII] leaves alone,
    quote and backslash apart. *)
Definition printable (c : N) : Prop := (32 <= c <= 126)%N.

(** ** Floats, kept abstract *)

Class PyFloat := {
  pyfloat : Type;
  (** [float(text)] on a JSON number literal or on the name of a constant *)
  float_of_literal : str -> pyfloat;
  (** the text [json.dumps] emits for a float: [float.__repr__], or
      NaN, Infinity, -Infinity *)
  float_repr : pyfloat -> str;
  float_repr_printable : forall f, Forall printable (float_repr f)
}.

(** A float model to evaluate examples with: one point, printed 0.0.  No
    example below contains a float. *)
Definition unit_float : PyFloat :=
  {| pyfloat := unit;
     float_of_literal := fun _ => tt;
     float_repr := fun _ => py "0.0";
     float_repr_printable := fun _ =>
       Forall_cons 48%N (conj (proj1 (N.leb_le 32 48) eq_refl) (proj1 (N.leb_le 48 126) eq_refl))
         (Forall_cons 46%N
            (conj (proj1 (N.leb_le 32 46) eq_refl) (proj1 (N.leb_le 46 126) eq_refl))
            (Forall_cons 48%N
               (conj (proj1 (N.leb_le 32 48) eq_refl) (proj1 (N.leb_le 48 126) eq_refl))
               (Forall_nil _))) |}.

Section Client.

Context {FL : PyFloat}.

(** ** Python values that JSON can carry *)

Inductive value :=
| VNone
| VBool (b : bool)
| VInt (n : Z)
| VFloat (f : pyfloat)
| VStr (s : str)
| VList (l : list value)
| VDict (d : list (str * value)).

(** A [dict] keeps its items in insertion order; its keys are distinct. *)
Definition dict := list (str * value).

Fixpoint dict_get (d : dict) (k : str) : option value :=
  match d with
  | [] => None
  | (k', v) :: d' => if str_eqb k k' then Some v else dict_get d' k
  end.

Definition dict_contains (d : dict) (k : str) : bool :=
  match dict_get d k with Some _ => true | None => false end.

(** [d[k] = v]: replaces the value of a present key in place, appends a new
    key at the end. *)
Fixpoint dict_set (d : dict) (k : str) (v : value) : dict :=
  match d with
  | [] => [(k, v)]
  | (k', v') :: d' =>
      if str_eqb k k' then (k', v) :: d' else (k', v') :: dict_set d' k v
  end.

(** [dict(pairs)] *)
Definition dict_of_pairs (pairs : list (str * value)) : dict :=
  fold_left (fun d kv => dict_set d (fst kv) (snd kv)) pairs [].

(** ** Exceptions and outcomes *)

Inductive exn :=
| RuntimeError (msg : str)
| OSError
| JSONDecodeError
| UnicodeDecodeError
| UnicodeEncodeError
| ValueError
| TypeError
| AttributeError
| IndexError
| KeyError
| ConnectionResetError
| ProcessLookupError
| RecursionError
| ToolException (payload : value).
(** [ToolException payload] is the plain [Exception] of [call_tool], whose
    message is "Tool error: " followed by [str(payload)]. *)

(** What an awaited call comes to: a value, an exception, or an await that
    never completes. *)
Inductive result (A : Type) :=
| Returned (a : A)
| Raised (e : exn)
| Pending.

Arguments Raised {A} e.
Arguments Pending {A}.

(** ** [json.dumps] with its default options

    [ensure_ascii=True], separators [", "] and [": "], no indentation. *)

Fixpoint uint_digits (u : Decimal.uint) : str :=
  match u with
  | Decimal.Nil => []
  | Decimal.D0 u' => 48%N :: uint_digits u'
  | Decimal.D1 u' => 49%N :: uint_digits u'
  | Decimal.D2 u' => 50%N :: uint_digits u'
  | Decimal.D3 u' => 51%N :: uint_digits u'
  | Decimal.D4 u' => 52%N :: uint_digits u'
  | Decimal.D5 u' => 53%N :: uint_digits u'
  | Decimal.D6 u' => 54%N :: uint_digits u'
  | Decimal.D7 u' => 55%N :: uint_digits u'
  | Decimal.D8 u' => 56%N :: uint_digits u'
  | Decimal.D9 u' => 57%N :: uint_digits u'
  end.

(** [int.__repr__] *)
Definition int_repr (z : Z) : str :=
  match Z.to_int z with
  | Decimal.Pos u => uint_digits u
  | Decimal.Neg u => 45%N :: uint_digits u
  end.

Definition hex_digit (d : N) : N :=
  if (d <? 10)%N then (48 + d)%N else (87 + d)%N.

(** ['\\u{0:04x}'.format(n)], called with [n < 0x10000] only. *)
Definition u_escape (n : N) : str :=
  [92; 117; hex_digit ((n / 4096) mod 16); hex_digit ((n / 256) mod 16);
   hex_digit ((n / 16) mod 16); hex_digit (n mod 16)]%N.

(** The replacement [encode_basestring_ascii] makes for one character. *)
Definition escape_char (c : N) : str :=
  if (c =? 34)%N then [92; 34]%N
  else if (c =? 92)%N then [92; 92]%N
  else if (c =? 10)%N then [92; 110]%N
  else if (c =? 13)%N then [92; 114]%N
  else if (c =? 9)%N then [92; 116]%N
  else if (c =? 12)%N then [92; 102]%N
  else if (c =? 8)%N then [92; 98]%N
  else if ((32 <=? c) && (c <=? 126))%N then [c]
  else if (c <? 0x10000)%N then u_escape c
  else
    let n := (c - 0x10000)%N in
    u_escape (N.lor 0xd800 (N.land (N.shiftr n 10) 0x3ff))
    ++ u_escape (N.lor 0xdc00 (N.land n 0x3ff)).

Definition encode_basestring_ascii (s : str) : str :=
  [34%N] ++ flat_map escape_char s ++ [34%N].

(** [sep.join(parts)] *)
Fixpoint join (sep : str) (parts : list str) : str :=
  match parts with
  | [] => []
  | x :: rest =>
      match rest with
      | [] => x
      | _ :: _ => x ++ sep ++ join sep rest
      end
  end.

Fixpoint json_dumps (v : value) : str :=
  match v with
  | VNone => py "null"
  | VBool true => py "true"
  | VBool false => py "false"
  | VInt n => int_repr n
  | VFloat f => float_repr f
  | VStr s => encode_basestring_ascii s
  | VList l => [91%N] ++ join (py ", ") (map json_dumps l) ++ [93%N]
  | VDict d =>
      [123%N]
      ++ join (py ", ")
           (map (fun kv => match kv with
                           | (k, x) => encode_basestring_ascii k ++ py ": "
                                       ++ json_dumps x
                           end) d)
      ++ [125%N]
  end.

(** ** [str.encode()] and [bytes.decode()]: strict UTF-8 *)

Definition byte_of_N (n : N) : byte :=
  match Byte.of_N n with Some b => b | None => x00 end.

Definition utf8_char (c : N) : option (list N) :=
  if (c <? 0x80)%N then Some [c]
  else if (c <? 0x800)%N then Some [0xC0 + c / 64; 0x80 + c mod 64]%N
  else if ((0xD800 <=? c) && (c <=? 0xDFFF))%N then None
  else if (c <? 0x10000)%N then
    Some [0xE0 + c / 4096; 0x80 + (c / 64) mod 64; 0x80 + c mod 64]%N
  else
    Some [0xF0 + c / 262144; 0x80 + (c / 4096) mod 64;
          0x80 + (c / 64) mod 64; 0x80 + c mod 64]%N.

Fixpoint utf8_encode (s : str) : option (list N) :=
  match s with
  | [] => Some []
  | c :: s' =>
      match utf8_char c, utf8_encode s' with
      | Some bs, Some rest => Some (bs ++ rest)
      | _, _ => None
      end
  end.

Definition str_encode (s : str) : result bytes :=
  match utf8_encode s with
  | Some bs => Returned (map byte_of_N bs)
  | None => Raised UnicodeEncodeError
  end.

Definition between (lo x hi : N) : bool := ((lo <=? x) && (x <=? hi))%N.

(** Continuation byte. *)
Definition cont (b : N) : bool := between 0x80 b 0xBF.

Definition low6 (b : N) : N := (b mod 64)%N.

Fixpoint utf8_decode (bs : list N) : option str :=
  match bs with
  | [] => Some []
  | b0 :: t0 =>
      if (b0 <? 0x80)%N then option_map (cons b0) (utf8_decode t0)
      else
        match t0 with
        | [] => None
        | b1 :: t1 =>
            if between 0xC2 b0 0xDF then
              if cont b1
              then option_map (cons ((b0 mod 32) * 64 + low6 b1)%N)
                     (utf8_decode t1)
              else None
            else
              match t1 with
              | [] => None
              | b2 :: t2 =>
                  if between 0xE0 b0 0xEF then
                    if between (if (b0 =? 0xE0)%N then 0xA0 else 0x80)%N b1
                         (if (b0 =? 0xED)%N then 0x9F else 0xBF)%N
                       && cont b2
                    then option_map
                           (cons ((b0 mod 16) * 4096 + low6 b1 * 64
                                  + low6 b2)%N)
                           (utf8_decode t2)
                    else None
                  else
                    match t2 with
                    | [] => None
                    | b3 :: t3 =>
                        if between 0xF0 b0 0xF4
                           && between (if (b0 =? 0xF0)%N then 0x90 else 0x80)%N
                                b1 (if (b0 =? 0xF4)%N then 0x8F else 0xBF)%N
                           && cont b2 && cont b3
                        then option_map
                               (cons ((b0 mod 8) * 262144 + low6 b1 * 4096
                                      + low6 b2 * 64 + low6 b3)%N)
                               (utf8_decode t3)
                        else None
                    end
              end
        end
  end.

Definition bytes_decode (bs : bytes) : result str :=
  match utf8_decode (map Byte.to_N bs) with
  | Some s => Returned s
  | None => Raised UnicodeDecodeError
  end.

(** ** [json.loads] with its default decoder

    The grammar of [json.decoder] and [json.scanner], digits and hexadecimal
    digits being the ASCII ones as in the accelerated scanner.  Error
    messages and positions are not kept: every refusal is [JSONDecodeError].
    The interpreter's recursion limit is not modelled. *)

Definition is_ws (c : N) : bool :=
  ((c =? 32) || (c =? 9) || (c =? 10) || (c =? 13))%N.

Fixpoint skip_ws (s : str) : str :=
  match s with
  | c :: s' => if is_ws c then skip_ws s' else s
  | [] => []
  end.

Definition is_digit (c : N) : bool := between 48 c 57.

Definition hex_val (c : N) : option N :=
  if between 48 c 57 then Some (c - 48)%N
  else if between 97 c 102 then Some (c - 87)%N
  else if between 65 c 70 then Some (c - 55)%N
  else None.

Definition hex4 (a b c d : N) : option N :=
  match hex_val a, hex_val b, hex_val c, hex_val d with
  | Some x, Some y, Some z, Some w => Some (((x * 16 + y) * 16 + z) * 16 + w)%N
  | _, _, _, _ => None
  end.

(** The [BACKSLASH] table. *)
Definition backslash (c : N) : option N :=
  if (c =? 34)%N then Some 34%N
  else if (c =? 92)%N then Some 92%N
  else if (c =? 47)%N then Some 47%N
  else if (c =? 98)%N then Some 8%N
  else if (c =? 102)%N then Some 12%N
  else if (c =? 110)%N then Some 10%N
  else if (c =? 114)%N then Some 13%N
  else if (c =? 116)%N then Some 9%N
  else None.

(** One more character in front of what the rest of the string gives. *)
Definition prepend (c : N) (r : option (str * str)) : option (str * str) :=
  match r with
  | Some (k, rest) => Some (c :: k, rest)
  | None => None
  end.

(** The character of a surrogate pair. *)
Definition join_surrogates (hi lo : N) : N :=
  (0x10000 + N.lor (N.shiftl (hi - 0xd800) 10) (lo - 0xdc00))%N.

(** [scanstring], strict: [s] starts after the opening quote; the result is
    the decoded string and what follows the closing quote. *)
Fixpoint scanstring (s : str) : option (str * str) :=
  match s with
  | [] => None
  | c :: t =>
      if (c =? 34)%N then Some ([], t)
      else if (c =? 92)%N then
        match t with
        | [] => None
        | e :: t1 =>
            if (e =? 117)%N then
              match t1 with
              | h1 :: h2 :: h3 :: h4 :: t2 =>
                  match hex4 h1 h2 h3 h4 with
                  | None => None
                  | Some uni =>
                      if between 0xd800 uni 0xdbff then
                        match t2 with
                        | b :: u :: t4 =>
                            if ((b =? 92) && (u =? 117))%N then
                              match t4 with
                              | g1 :: g2 :: g3 :: g4 :: t5 =>
                                  match hex4 g1 g2 g3 g4 with
                                  | None => None
                                  | Some uni2 =>
                                      if between 0xdc00 uni2 0xdfff
                                      then prepend (join_surrogates uni uni2)
                                             (scanstring t5)
                                      else prepend uni (scanstring t2)
                                  end
                              | _ => None
                              end
                            else prepend uni (scanstring t2)
                        | _ => prepend uni (scanstring t2)
                        end
                      else prepend uni (scanstring t2)
                  end
              | _ => None
              end
            else
              match backslash e with
              | None => None
              | Some x => prepend x (scanstring t1)
              end
        end
      else if (c <? 32)%N then None
      else prepend c (scanstring t)
  end.

Fixpoint span_digits (s : str) : str * str :=
  match s with
  | c :: s' =>
      if is_digit c
      then let (d, r) := span_digits s' in (c :: d, r)
      else ([], s)
  | [] => ([], [])
  end.

(** [int(text)] on a string of ASCII digits *)
Definition nat_of_digits (ds : str) : N :=
  fold_left (fun acc d => (acc * 10 + (d - 48))%N) ds 0%N.

(** The integer part of [NUMBER_RE]: an optional minus sign, then 0 or a
    digit from 1 to 9 followed by digits. *)
Definition match_integer (s : str) : option (bool * str * str) :=
  let (neg, s0) :=
    match s with
    | c :: t => if (c =? 45)%N then (true, t) else (false, s)
    | [] => (false, s)
    end in
  match s0 with
  | [] => None
  | c :: t =>
      if (c =? 48)%N then Some (neg, [c], t)
      else if between 49 c 57
      then let (d, r) := span_digits t in Some (neg, c :: d, r)
      else None
  end.

(** The fraction group: a dot and at least one digit. *)
Definition match_frac (s : str) : str * str :=
  match s with
  | c :: t =>
      if (c =? 46)%N then
        match span_digits t with
        | ([], _) => ([], s)
        | (d, r) => (c :: d, r)
        end
      else ([], s)
  | [] => ([], s)
  end.

(** The exponent group: e or E, an optional sign, at least one digit. *)
Definition match_exp (s : str) : str * str :=
  match s with
  | c :: t =>
      if ((c =? 101) || (c =? 69))%N then
        let (sg, t') :=
          match t with
          | c2 :: t2 =>
              if ((c2 =? 43) || (c2 =? 45))%N then ([c2], t2) else ([], t)
          | [] => ([], t)
          end in
        match span_digits t' with
        | ([], _) => ([], s)
        | (d, r) => (c :: sg ++ d, r)
        end
      else ([], s)
  | [] => ([], s)
  end.

Definition match_number (s : str) : option (value * str) :=
  match match_integer s with
  | None => None
  | Some (neg, ds, r) =>
      let (frac, r1) := match_frac r in
      let (exp, r2) := match_exp r1 in
      match frac, exp with
      | [], [] =>
          let n := Z.of_N (nat_of_digits ds) in
          Some (VInt (if neg then (- n)%Z else n), r2)
      | _, _ =>
          Some (VFloat (float_of_literal
                          ((if neg then [45%N] else []) ++ ds ++ frac ++ exp)),
                r2)
      end
  end.

(** What a scanning function comes to: a value and the rest of the text, a
    refusal, or recursion deeper than [fuel]. *)
Inductive scan (A : Type) :=
| Ok (a : A) (rest : str)
| Fail
| Deep.

Arguments Fail {A}.
Arguments Deep {A}.

(** [scan_once], [JSONArray] and [JSONObject].  [array_items] starts at a
    value, [object_items] after the opening quote of a key. *)
Fixpoint scan_once (fuel : nat) (s : str) {struct fuel} : scan value :=
  match fuel with
  | O => Deep
  | S fuel' =>
      match s with
      | [] => Fail
      | c :: s' =>
          if (c =? 34)%N then
            match scanstring s' with
            | Some (k, rest) => Ok (VStr k) rest
            | None => Fail
            end
          else if (c =? 123)%N then
            match skip_ws s' with
            | c1 :: rest =>
                if (c1 =? 125)%N then Ok (VDict []) rest
                else if (c1 =? 34)%N then object_items fuel' [] rest
                else Fail
            | [] => Fail
            end
          else if (c =? 91)%N then
            match skip_ws s' with
            | c1 :: rest =>
                if (c1 =? 93)%N then Ok (VList []) rest
                else array_items fuel' [] (c1 :: rest)
            | [] => Fail
            end
          else if startswith s (py "null") then Ok VNone (skipn 4 s)
          else if startswith s (py "true") then Ok (VBool true) (skipn 4 s)
          else if startswith s (py "false") then Ok (VBool false) (skipn 5 s)
          else
            match match_number s with
            | Some (v, rest) => Ok v rest
            | None =>
                if startswith s (py "NaN")
                then Ok (VFloat (float_of_literal (py "NaN"))) (skipn 3 s)
                else if startswith s (py "Infinity")
                then Ok (VFloat (float_of_literal (py "Infinity"))) (skipn 8 s)
                else if startswith s (py "-Infinity")
                then Ok (VFloat (float_of_literal (py "-Infinity")))
                       (skipn 9 s)
                else Fail
            end
      end
  end

with array_items (fuel : nat) (acc : list value) (s : str) {struct fuel}
  : scan value :=
  match fuel with
  | O => Deep
  | S fuel' =>
      match scan_once fuel' s with
      | Ok v rest =>
          match skip_ws rest with
          | c :: rest' =>
              if (c =? 93)%N then Ok (VList (rev (v :: acc))) rest'
              else if (c =? 44)%N
              then array_items fuel' (v :: acc) (skip_ws rest')
              else Fail
          | [] => Fail
          end
      | Fail => Fail
      | Deep => Deep
      end
  end

with object_items (fuel : nat) (pairs : list (str * value)) (s : str)
  {struct fuel} : scan value :=
  match fuel with
  | O => Deep
  | S fuel' =>
      match scanstring s with
      | None => Fail
      | Some (key, s1) =>
          match skip_ws s1 with
          | c :: s2 =>
              if (c =? 58)%N then
                match scan_once fuel' (skip_ws s2) with
                | Ok v rest =>
                    match skip_ws rest with
                    | c1 :: rest' =>
                        if (c1 =? 125)%N
                        then Ok (VDict (dict_of_pairs
                                          (rev ((key, v) :: pairs)))) rest'
                        else if (c1 =? 44)%N then
                          match skip_ws rest' with
                          | q :: s3 =>
                              if (q =? 34)%N
                              then object_items fuel' ((key, v) :: pairs) s3
                              else Fail
                          | [] => Fail
                          end
                        else Fail
                    | [] => Fail
                    end
                | Fail => Fail
                | Deep => Deep
                end
              else Fail
          | [] => Fail
          end
      end
  end.

(** [json.loads(s)] for a [str]: no byte order mark, one value, white space
    around it and nothing else. *)
Definition json_loads (s : str) : result value :=
  if startswith s [0xfeff%N] then Raised JSONDecodeError
  else
    match scan_once (2 * List.length s + 1) (skip_ws s) with
    | Ok v rest =>
        match skip_ws rest with
        | [] => Returned v
        | _ :: _ => Raised JSONDecodeError
        end
    | Fail => Raised JSONDecodeError
    | Deep => Raised RecursionError
    end.

(** ** The operators [call_tool] applies to the decoded response *)

(** [needle in container], the needle being a [str] *)
Definition py_in (needle : str) (container : value) : result bool :=
  match container with
  | VDict d => Returned (dict_contains d needle)
  | VList l =>
      Returned (existsb (fun x => match x with
                                  | VStr s => str_eqb s needle
                                  | _ => false
                                  end) l)
  | VStr s => Returned (str_contains s needle)
  | _ => Raised TypeError
  end.

(** [v[key]], the key being a [str] *)
Definition py_getitem (v : value) (key : str) : result value :=
  match v with
  | VDict d =>
      match dict_get d key with
      | Some x => Returned x
      | None => Raised KeyError
      end
  | _ => Raised TypeError
  end.

(** [v.get(key, default)] *)
Definition py_get (v : value) (key : str) (default : value) : result value :=
  match v with
  | VDict d =>
      Returned (match dict_get d key with Some x => x | None => default end)
  | _ => Raised AttributeError
  end.

(** [v[i]], the index being an [int] *)
Definition py_index (v : value) (i : Z) : result value :=
  match v with
  | VList l =>
      let j := if (i <? 0)%Z then (i + Z.of_nat (List.length l))%Z else i in
      if (j <? 0)%Z then Raised IndexError
      else match nth_error l (Z.to_nat j) with
           | Some x => Returned x
           | None => Raised IndexError
           end
  | VStr s =>
      let j := if (i <? 0)%Z then (i + Z.of_nat (List.length s))%Z else i in
      if (j <? 0)%Z then Raised IndexError
      else match nth_error s (Z.to_nat j) with
           | Some c => Returned (VStr [c])
           | None => Raised IndexError
           end
  | VDict _ => Raised KeyError
  | _ => Raised TypeError
  end.

(** ** The child process and its pipes

    [finished]: the child has exited and the event loop has closed its
    transport.  [stdout_buffer]: the bytes the child has emitted and the
    client has not read; when [finished] they are followed by end of file.
    The child is taken to read its standard input and to exit on SIGTERM. *)

Record Process := {
  finished : bool;
  stdout_buffer : bytes
}.

(** What the client does to the outside. *)
Inductive event :=
| Spawn
| Write (data : bytes)
| Terminate.

(** What the child does while the client awaits its answer: the bytes it
    emits on its standard output, and whether it exits after them. *)
Record reply := {
  emitted : bytes;
  exits : bool
}.

(** The default [limit] of the subprocess streams, 64 KiB. *)
Definition stream_limit : N := 65536%N.

(** [buffer.find(b'\n')]: the line up to and including the first newline,
    and what follows it. *)
Fixpoint split_line (buf : bytes) : option (bytes * bytes) :=
  match buf with
  | [] => None
  | c :: rest =>
      if Byte.eqb c x0a then Some ([c], rest)
      else match split_line rest with
           | Some (line, rest') => Some (c :: line, rest')
           | None => None
           end
  end.

(** [StreamReader.readline] on the buffer of [p]: the line up to the first
    newline; at end of file, without a newline, what is left, possibly
    nothing; [ValueError] when the limit is passed; otherwise the read waits
    for data.  After a [ValueError] the buffer given here is what asyncio
    leaves when the whole line had arrived; it leaves more of the line when
    the limit was passed before. *)
Definition readline (p : Process) : result bytes * Process :=
  match split_line (stdout_buffer p) with
  | Some (line, rest) =>
      let p' := {| finished := finished p; stdout_buffer := rest |} in
      if (stream_limit <? N.of_nat (List.length line - 1))%N
      then (Raised ValueError, p')
      else (Returned line, p')
  | None =>
      let p' := {| finished := finished p; stdout_buffer := [] |} in
      if (stream_limit <? N.of_nat (List.length (stdout_buffer p)))%N
      then (Raised ValueError, p')
      else if finished p then (Returned (stdout_buffer p), p')
      else (Pending, p)
  end.

(** The child's turn: it emits its bytes and, when it exits, its standard
    output is at end of file and its transport closed. *)
Definition child_step (answer : reply) (p : Process) : Process :=
  if finished p then p
  else {| finished := exits answer;
          stdout_buffer := stdout_buffer p ++ emitted answer |}.

(** ** The client object *)

Record MCPClient := {
  process : option Process;
  request_id : Z
}.

Definition __init__ : MCPClient :=
  {| process := None; request_id := 0 |}.

(** A coroutine of the class. *)
Definition coro (A : Type) : Type :=
  MCPClient -> result A * MCPClient * list event.

Definition ret {A} (a : A) : coro A :=
  fun self => (Returned a, self, []).

Definition raise {A} (e : exn) : coro A :=
  fun self => (Raised e, self, []).

Definition lift {A} (r : result A) : coro A :=
  fun self => (r, self, []).

Definition bind {A B} (m : coro A) (k : A -> coro B) : coro B :=
  fun self =>
    match m self with
    | (Returned a, self1, ev1) =>
        match k a self1 with
        | (r, self2, ev2) => (r, self2, ev1 ++ ev2)
        end
    | (Raised e, self1, ev1) => (Raised e, self1, ev1)
    | (Pending, self1, ev1) => (Pending, self1, ev1)
    end.

Notation "x <- m ;; k" := (bind m (fun x => k))
  (at level 61, m at next level, right associativity).
Notation "m ;; k" := (bind m (fun _ => k))
  (at level 61, right associativity).

Definition get_process : coro (option Process) :=
  fun self => (Returned (process self), self, []).

Definition set_process (p : option Process) : coro unit :=
  fun self =>
    (Returned tt, {| process := p; request_id := request_id self |}, []).

Definition get_request_id : coro Z :=
  fun self => (Returned (request_id self), self, []).

Definition set_request_id (n : Z) : coro unit :=
  fun self => (Returned tt, {| process := process self; request_id := n |}, []).

(** An operation on [self.process]; on [None] the attribute access fails. *)
Definition on_process {A}
  (f : Process -> result A * Process * list event) : coro A :=
  fun self =>
    match process self with
    | None => (Raised AttributeError, self, [])
    | Some p =>
        match f p with
        | (r, p', ev) =>
            (r, {| process := Some p'; request_id := request_id self |}, ev)
        end
    end.

(** [self.process.stdin.write(data)].  The pipe transport returns at once
    on empty data, and once the pipe is lost it counts the call and drops the
    data ([_UnixWritePipeTransport.write]). *)
Definition stdin_write (data : bytes) : coro unit :=
  on_process (fun p =>
    (Returned tt, p,
     if finished p then []
     else match data with [] => [] | _ :: _ => [Write data] end)).

(** [await self.process.stdin.drain()].  When the pipe of the standard
    input is lost the protocol is marked so, and [_drain_helper] raises
    [ConnectionResetError]. *)
Definition stdin_drain : coro unit :=
  on_process (fun p =>
    (if finished p then Raised ConnectionResetError else Returned tt, p, [])).

(** [await self.process.stdout.readline()], the child answering meanwhile. *)
Definition stdout_readline (answer : reply) : coro bytes :=
  on_process (fun p =>
    match readline (child_step answer p) with
    | (r, p') => (r, p', [])
    end).

(** [self.process.terminate()].  The transport first runs [_check_proc],
    which raises [ProcessLookupError] when its [_proc] is [None]; that is
    the case once the child has exited and its pipes are closed
    ([_call_connection_lost]). *)
Definition terminate : coro unit :=
  on_process (fun p =>
    if finished p then (Raised ProcessLookupError, p, [])
    else (Returned tt, p, [Terminate])).

(** [await self.process.wait()].  The waiters are woken by
    [_call_connection_lost], which also sets [_proc] to [None]: when [wait]
    returns the transport is closed. *)
Definition wait : coro unit :=
  on_process (fun p =>
    (Returned tt,
     {| finished := true; stdout_buffer := stdout_buffer p |}, [])).

(** [start_server]; [spawned] is what [create_subprocess_exec] comes to. *)
Definition start_server (spawned : result Process) : coro unit :=
  p <- lift spawned ;;
  (fun self => (Returned tt, self, [Spawn])) ;;
  set_process (Some p).

Definition send_request (method : str) (params : dict) (answer : reply)
  : coro value :=
  p <- get_process ;;
  match p with
  | None => raise (RuntimeError (py "Server not started"))
  | Some _ =>
      n <- get_request_id ;;
      set_request_id (n + 1) ;;
      id <- get_request_id ;;
      let request :=
        VDict [(py "jsonrpc", VStr (py "2.0"));
               (py "id", VInt id);
               (py "method", VStr method);
               (py "params", VDict params)] in
      let request_json := json_dumps request ++ [10%N] in
      data <- lift (str_encode request_json) ;;
      stdin_write data ;;
      stdin_drain ;;
      response_line <- stdout_readline answer ;;
      text <- lift (bytes_decode response_line) ;;
      response <- lift (json_loads text) ;;
      ret response
  end.

Definition call_tool (tool_name : str) (arguments : dict) (answer : reply)
  : coro value :=
  response <- send_request (py "tools/call")
                [(py "name", VStr tool_name);
                 (py "arguments", VDict arguments)] answer ;;
  has_error <- lift (py_in (py "error") response) ;;
  if has_error : bool then
    payload <- lift (py_getitem response (py "error")) ;;
    raise (ToolException payload)
  else
    result_ <- lift (py_get response (py "result") (VDict [])) ;;
    content <- lift (py_get result_ (py "content") (VList [VDict []])) ;;
    first <- lift (py_index content 0) ;;
    lift (py_get first (py "text") VNone).

Definition stop_server : coro unit :=
  p <- get_process ;;
  match p with
  | Some _ => terminate ;; wait
  | None => ret tt
  end.

(** ** Vocabulary of the statements *)

(** Sequencing on outcomes. *)
Definition rbind {A B} (r : result A) (k : A -> result B) : result B :=
  match r with
  | Returned a => k a
  | Raised e => Raised e
  | Pending => Pending
  end.

(** The request object [send_request] builds for a given id. *)
Definition envelope (id : Z) (method : str) (params : dict) : value :=
  VDict [(py "jsonrpc", VStr (py "2.0"));
         (py "id", VInt id);
         (py "method", VStr method);
         (py "params", VDict params)].

(** The parameters [call_tool] hands to [send_request]. *)
Definition tool_params (tool_name : str) (arguments : dict) : dict :=
  [(py "name", VStr tool_name); (py "arguments", VDict arguments)].

(** The bytes of a JSON text followed by a newline. *)
Definition wire (request : value) : bytes :=
  map byte_of_N (json_dumps request) ++ [x0a].

(** [json.loads(line.decode())] *)
Definition decode_response (line : bytes) : result value :=
  rbind (bytes_decode line) json_loads.

(** Lines 61 to 64 of [call_tool] as a function of the decoded response. *)
Definition extract (response : value) : result value :=
  rbind (py_in (py "error") response) (fun has_error =>
    if has_error : bool then
      rbind (py_getitem response (py "error")) (fun payload =>
        Raised (ToolException payload))
    else
      rbind (py_get response (py "result") (VDict [])) (fun result_ =>
      rbind (py_get result_ (py "content") (VList [VDict []])) (fun content =>
      rbind (py_index content 0) (fun first =>
      py_get first (py "text") VNone)))).

(** A request as the caller of [send_request] sees it: the id it got, the
    method and the parameters. *)
Definition request : Type := Z * str * dict.

Definition id_of (r : request) : Z := fst (fst r).

Definition wire_of (r : request) : bytes :=
  wire (envelope (fst (fst r)) (snd (fst r)) (snd r)).

(** The data of the [Write] events of a trace, in order. *)
Fixpoint writes (evs : list event) : list bytes :=
  match evs with
  | [] => []
  | Write data :: rest => data :: writes rest
  | _ :: rest => writes rest
  end.

(** One step in the life of a client: a call of one of its coroutines by
    the program that owns it, or the exit of the child on its own. *)
Inductive call :=
| StartServer (spawned : result Process)
| SendRequest (method : str) (params : dict) (answer : reply)
| CallTool (tool_name : str) (arguments : dict) (answer : reply)
| StopServer
| ChildExits.

Definition is_pending {A} (r : result A) : bool :=
  match r with Pending => true | _ => false end.

(** The caller drops the value and catches the exception; a call that never
    completes ends the run. *)
Definition discard {A} (x : result A * MCPClient * list event)
  : bool * MCPClient * list event :=
  match x with (r, self', ev) => (negb (is_pending r), self', ev) end.

Definition perform (c : call) (self : MCPClient)
  : bool * MCPClient * list event :=
  match c with
  | StartServer spawned => discard (start_server spawned self)
  | SendRequest method params answer =>
      discard (send_request method params answer self)
  | CallTool tool_name arguments answer =>
      discard (call_tool tool_name arguments answer self)
  | StopServer => discard (stop_server self)
  | ChildExits =>
      (true,
       {| process :=
            option_map (fun p => {| finished := true;
                                    stdout_buffer := stdout_buffer p |})
              (process self);
          request_id := request_id self |},
       [])
  end.

Fixpoint run (calls : list call) (self : MCPClient)
  : MCPClient * list event :=
  match calls with
  | [] => (self, [])
  | c :: rest =>
      match perform c self with
      | (true, self1, ev1) =>
          match run rest self1 with
          | (self2, ev2) => (self2, ev1 ++ ev2)
          end
      | (false, self1, ev1) => (self1, ev1)
      end
  end.

(** An ASCII literal with an apostrophe wherever the text has a double
    quote. *)
Definition quoted (s : string) : str :=
  map (fun c => if (c =? 39)%N then 34%N else c) (py s).

Definition ascii_bytes (s : str) : bytes := map byte_of_N s.

(** A child that has just been started. *)
Definition fresh : Process := {| finished := false; stdout_buffer := [] |}.

(** A client whose [start_server] has completed. *)
Definition started : MCPClient := {| process := Some fresh; request_id := 0 |}.

(** The child emits one line and goes on running. *)
Definition says (line : str) : reply :=
  {| emitted := ascii_bytes line ++ [x0a]; exits := false |}.

(** The child emits some bytes without a newline and exits. *)
Definition dies_after (partial : str) : reply :=
  {| emitted := ascii_bytes partial; exits := true |}.

(** The answers of the child used in the examples. *)
Definition line_57 : str := quoted "{'result':{'content':[{'text':'57'}]}}".

Definition line_error : str :=
  quoted "{'error':{'message':'population must be non-empty'}}".

Definition line_no_result : str := quoted "{'jsonrpc':'2.0','id':1}".

Definition line_empty_content : str := quoted "{'result':{'content':[]}}".

Definition line_other_id : str :=
  quoted "{'jsonrpc':'2.0','id':999,'result':{'content':[{'text':'57'}]}}".

(** The arguments of the first call of the demo. *)
Definition low_high : dict := [(py "low", VInt 1); (py "high", VInt 100)].

(** ** [print]

    Standard output is taken to encode as UTF-8: [print] raises
    [UnicodeEncodeError] on a text that holds a surrogate and on no other.
    The literals of the source print.  The text of a [str] is the [str]
    itself; the text of any other value is its [repr], in which the strings
    are escaped. *)

(** A Unicode scalar value: a code point outside the surrogates. *)
Definition scalar (c : N) : bool :=
  ((c <? 0xD800) || ((0xE000 <=? c) && (c <=? 0x10FFFF)))%N.

(** The text of [v] can be printed. *)
Definition prints (v : value) : bool :=
  match v with
  | VStr s => forallb scalar s
  | _ => true
  end.

(** The text of [e] can be printed.  Only the exception of line 62 and
    [RuntimeError] carry a text of the caller's; the messages of the others
    are ASCII. *)
Definition exn_prints (e : exn) : bool :=
  match e with
  | ToolException payload => prints payload
  | RuntimeError msg => forallb scalar msg
  | _ => true
  end.

(** [print(f"...{v}")] *)
Definition print_value (v : value) : coro unit :=
  if prints v then ret tt else raise UnicodeEncodeError.

(** [print(f"...{e}")] *)
Definition print_exn (e : exn) : coro unit :=
  if exn_prints e then ret tt else raise UnicodeEncodeError.

(** ** The two demo phases and [main]

    The answers of the child are given by the rank of the call in the
    phase.  Each phase owns its client; its final state is given along with
    the outcome.  The prints of what the child sent are part of the phases:
    the results in [demo_random_tools], the exceptions caught call by call
    in [demo_error_handling].  The handler that ends a phase (lines 141 and
    184) prints the exception it caught before it returns 1.  That print is
    left out: what start_server and [print] raise prints, and what is stated
    below about a call whose exception reaches that handler is stated for an
    exception that prints. *)

(** [try: body  except Exception as e: handler e] *)
Definition try_except {A} (body : coro A) (handler : exn -> coro A) : coro A :=
  fun self =>
    match body self with
    | (Raised e, self1, ev1) =>
        match handler e self1 with
        | (r, self2, ev2) => (r, self2, ev1 ++ ev2)
        end
    | other => other
    end.

(** [try: body  finally: final]: the outcome of [body] stands unless
    [final] raises or never completes. *)
Definition try_finally {A} (body : coro A) (final : coro unit) : coro A :=
  fun self =>
    match body self with
    | (Pending, self1, ev1) => (Pending, self1, ev1)
    | (r, self1, ev1) =>
        match final self1 with
        | (Returned _, self2, ev2) => (r, self2, ev1 ++ ev2)
        | (Raised e, self2, ev2) => (Raised e, self2, ev1 ++ ev2)
        | (Pending, self2, ev2) => (Pending, self2, ev1 ++ ev2)
        end
    end.

(** A float written in the source. *)
Definition float_literal (text : string) : value :=
  VFloat (float_of_literal (py text)).

Definition population : value :=
  VList [VStr (py "apple"); VStr (py "banana"); VStr (py "cherry");
         VStr (py "date"); VStr (py "elderberry")].

Definition numbers : value :=
  VList [VInt 1; VInt 2; VInt 3; VInt 4; VInt 5;
         VInt 6; VInt 7; VInt 8; VInt 9; VInt 10].

(** The value of a [return] met on the way, if any, decides the code. *)
Definition return_or (default : Z) (returned : option Z) : coro Z :=
  match returned with
  | Some code => ret code
  | None => ret default
  end.

Definition demo_random_tools (spawned : result Process)
  (answers : nat -> reply) : result Z * MCPClient * list event :=
  let client := __init__ in
  (returned <-
     try_finally
       (try_except
          (start_server spawned ;;
           result_ <- call_tool (py "random_int")
                        [(py "low", VInt 1); (py "high", VInt 100)]
                        (answers 0) ;;
           print_value result_ ;;
           result_ <- call_tool (py "random_int")
                        [(py "low", VInt (-10)); (py "high", VInt 10)]
                        (answers 1) ;;
           print_value result_ ;;
           result_ <- call_tool (py "random_float") [] (answers 2) ;;
           print_value result_ ;;
           result_ <- call_tool (py "random_float")
                        [(py "low", float_literal "2.5");
                         (py "high", float_literal "7.5")] (answers 3) ;;
           print_value result_ ;;
           result_ <- call_tool (py "random_choices")
                        [(py "population", population); (py "k", VInt 1)]
                        (answers 4) ;;
           print_value result_ ;;
           result_ <- call_tool (py "random_choices")
                        [(py "population", population); (py "k", VInt 3);
                         (py "weights",
                          VList [float_literal "0.4"; float_literal "0.3";
                                 float_literal "0.2"; float_literal "0.1";
                                 float_literal "0.0"])] (answers 5) ;;
           print_value result_ ;;
           result_ <- call_tool (py "random_shuffle")
                        [(py "items", numbers)] (answers 6) ;;
           print_value result_ ;;
           result_ <- call_tool (py "secure_token_hex")
                        [(py "nbytes", VInt 16)] (answers 7) ;;
           print_value result_ ;;
           result_ <- call_tool (py "secure_token_hex") [] (answers 8) ;;
           print_value result_ ;;
           result_ <- call_tool (py "secure_random_int")
                        [(py "upper_bound", VInt 1000)] (answers 9) ;;
           print_value result_ ;;
           result_ <- call_tool (py "secure_random_int")
                        [(py "upper_bound", VInt 6)] (answers 10) ;;
           print_value result_ ;;
           ret None)
          (fun _ => ret (Some 1%Z)))
       stop_server ;;
   return_or 0 returned) client.

Definition demo_error_handling (spawned : result Process)
  (answers : nat -> reply) : result Z * MCPClient * list event :=
  let client := __init__ in
  (returned <-
     try_finally
       (try_except
          (start_server spawned ;;
           try_except
             (call_tool (py "random_int")
                [(py "low", VInt 10); (py "high", VInt 5)] (answers 0) ;;
              ret tt)
             print_exn ;;
           try_except
             (call_tool (py "random_choices")
                [(py "population", VList [])] (answers 1) ;;
              ret tt)
             print_exn ;;
           try_except
             (call_tool (py "secure_token_hex")
                [(py "nbytes", VInt (-1))] (answers 2) ;;
              ret tt)
             print_exn ;;
           ret None)
          (fun _ => ret (Some 1%Z)))
       stop_server ;;
   return_or 0 returned) client.

(** [main]: the two phases one after the other, each with its own child. *)
Definition main (spawned1 : result Process) (answers1 : nat -> reply)
  (spawned2 : result Process) (answers2 : nat -> reply)
  : result Z * list event :=
  match demo_random_tools spawned1 answers1 with
  | (Returned result1, _, ev1) =>
      match demo_error_handling spawned2 answers2 with
      | (Returned result2, _, ev2) =>
          (Returned (if ((result1 =? 0) && (result2 =? 0))%Z
                     then 0%Z else 1%Z),
           ev1 ++ ev2)
      | (Raised e, _, ev2) => (Raised e, ev1 ++ ev2)
      | (Pending, _, ev2) => (Pending, ev1 ++ ev2)
      end
  | (Raised e, _, ev1) => (Raised e, ev1)
  | (Pending, _, ev1) => (Pending, ev1)
  end.


(** ** Vocabulary for the demo phases *)





(** The child answers with exactly one line, within the limit of the
    stream, and goes on running. *)
Definition one_line (answer : reply) : Prop :=
  exits answer = false
  /\ split_line (emitted answer) = Some (emitted answer, [])
  /\ (N.of_nat (List.length (emitted answer) - 1) <= stream_limit)%N.

(** What [call_tool] makes of a line. *)
Definition tool_outcome (line : bytes) : result value :=
  rbind (decode_response line) extract.

(** A client whose child runs and has nothing unread, at a given count. *)
Definition running_at (n : Z) : MCPClient :=
  {| process := Some fresh; request_id := n |}.

(** The answer is one line from which [call_tool] returns a value. *)
Definition answers_well (answer : reply) : Prop :=
  one_line answer
  /\ exists v : value, tool_outcome (emitted answer) = Returned v.




(** A line of 65537 letters and a newline. *)
Definition long_line : bytes := repeat x61 (N.to_nat 65537) ++ [x0a].

Definition line_null : str := py "null".

Definition line_null_result : str := quoted "{'result':null}".

Definition line_text_content : str := quoted "{'result':{'content':'abc'}}".



(** ** Values that survive the wire *)

Fixpoint distinct (keys : list str) : bool :=
  match keys with
  | [] => true
  | k :: rest => negb (existsb (str_eqb k) rest) && distinct rest
  end.

(** No float, strings of scalar values, and in every mapping distinct
    keys. *)
Fixpoint plain (v : value) : bool :=
  match v with
  | VNone => true
  | VBool _ => true
  | VInt _ => true
  | VFloat _ => false
  | VStr s => forallb scalar s
  | VList l => forallb plain l
  | VDict d =>
      distinct (map fst d)
      && forallb (fun kv => match kv with
                            | (k, x) => forallb scalar k && plain x
                            end) d
  end.

(** What may follow a number without changing it: nothing, or a character
    that is no digit, dot or exponent mark. *)
Definition delimited (rest : str) : Prop :=
  match rest with
  | [] => True
  | c :: _ => is_digit c = false /\ c <> 46%N /\ c <> 101%N /\ c <> 69%N
  end.

(** The scanner reads the text of [v] back, whatever delimited text
    follows it, unless the fuel runs out. *)
Definition scans_back (v : value) : Prop :=
  forall (fuel : nat) (rest : str),
    delimited rest ->
    scan_once fuel (json_dumps v ++ rest) = Deep
    \/ scan_once fuel (json_dumps v ++ rest) = Ok v rest.

(** The text of an item of a mapping. *)
Definition item_text (kv : str * value) : str :=
  match kv with
  | (k, x) => encode_basestring_ascii k ++ py ": " ++ json_dumps x
  end.

(** ** What [json.dumps] accepts

    [json_dumps] above is [json.dumps] where it returns.  The encoder raises
    [ValueError] on an [int] of more than 4300 digits ([int.__repr__] and
    [sys.int_info.default_max_str_digits]) and [RecursionError] when lists
    and mappings are nested beyond what the recursion limit leaves; it
    enters one level for each list or mapping inside another, and a hundred
    levels are within the default limit from the call stack of this
    program.  Nothing else in a value of the type above makes it raise. *)

Definition int_max_str_digits : nat := 4300.

Definition nesting_room : nat := 100.

Fixpoint encodable_within (room : nat) (v : value) : bool :=
  match v with
  | VInt n =>
      (List.length (int_repr (Z.abs n)) <=? int_max_str_digits)%nat
  | VList l =>
      match room with
      | O => false
      | S room' => forallb (encodable_within room') l
      end
  | VDict d =>
      match room with
      | O => false
      | S room' =>
          forallb (fun kv => match kv with
                             | (_, x) => encodable_within room' x
                             end) d
      end
  | _ => true
  end.

(** A value [json.dumps] returns on. *)
Definition encodable (v : value) : bool := encodable_within nesting_room v.

(** ** The requests of a run *)

(** The calls a run gets to, each with the client it is made on. *)
Fixpoint steps (calls : list call) (self : MCPClient)
  : list (call * MCPClient) :=
  match calls with
  | [] => []
  | c :: rest =>
      (c, self)
      :: match perform c self with
         | (true, self1, _) => steps rest self1
         | (false, _, _) => []
         end
  end.

(** The request a call makes, in the words of the claim: send_request,
    called directly or by call_tool, on a client that has a process handle
    uses the counter plus one.  No other call makes a request. *)
Definition issued (step : call * MCPClient) : option request :=
  match step with
  | (SendRequest method params _, self) =>
      match process self with
      | Some _ => Some ((request_id self + 1)%Z, method, params)
      | None => None
      end
  | (CallTool tool_name arguments _, self) =>
      match process self with
      | Some _ =>
          Some ((request_id self + 1)%Z, py "tools/call",
                tool_params tool_name arguments)
      | None => None
      end
  | _ => None
  end.

Fixpoint requests_of (l : list (call * MCPClient)) : list request :=
  match l with
  | [] => []
  | step :: rest =>
      match issued step with
      | Some r => r :: requests_of rest
      | None => requests_of rest
      end
  end.

(** The client has a child whose pipes are open. *)
Definition running (self : MCPClient) : bool :=
  match process self with
  | Some p => negb (finished p)
  | None => false
  end.

(** [n], [n + 1], ... *)
Fixpoint count_from (n : Z) (len : nat) : list Z :=
  match len with
  | O => []
  | S len' => n :: count_from (n + 1) len'
  end.

Definition envelope_of (r : request) : value :=
  envelope (fst (fst r)) (snd (fst r)) (snd r).

(** The lines a call writes. *)
Definition step_writes (step : call * MCPClient) : list bytes :=
  writes (snd (perform (fst step) (snd step))).

(** A call writes nothing or the line of the request it makes, and that
    line whenever the child is running and [json.dumps] accepts the
    request. *)
Definition writes_own_request (step : call * MCPClient) : Prop :=
  match issued step with
  | Some r =>
      (step_writes step = [] \/ step_writes step = [wire_of r])
      /\ (running (snd step) = true ->
          encodable (envelope_of r) = true ->
          step_writes step = [wire_of r])
  | None => step_writes step = []
  end.

(** ** [json.dumps] emits printable ASCII *)

Ltac printable_literal :=
  repeat (apply Forall_cons; [unfold printable; simpl; lia | ]);
  apply Forall_nil.

Lemma uint_digits_printable (u : Decimal.uint) :
  Forall printable (uint_digits u).
Proof.
  induction u; simpl; constructor; trivial; unfold printable; lia.
Qed.

Lemma int_repr_printable (z : Z) : Forall printable (int_repr z).
Proof.
  unfold int_repr. destruct (Z.to_int z) as [u | u].
  - apply uint_digits_printable.
  - constructor; [unfold printable; lia | apply uint_digits_printable].
Qed.

Lemma hex_digit_printable (d : N) :
  (d < 16)%N -> printable (hex_digit d).
Proof.
  intros Hd. unfold hex_digit, printable.
  destruct (N.ltb_spec d 10); lia.
Qed.

Lemma u_escape_printable (n : N) : Forall printable (u_escape n).
Proof.
  unfold u_escape.
  repeat (apply Forall_cons;
          [first [ apply hex_digit_printable; apply N.mod_lt; discriminate
                 | unfold printable; lia ] | ]).
  apply Forall_nil.
Qed.

Lemma escape_char_printable (c : N) : Forall printable (escape_char c).
Proof.
  unfold escape_char.
  repeat match goal with
         | |- context [if (?a =? ?b)%N then _ else _] =>
             destruct (a =? b)%N; [printable_literal | ]
         end.
  destruct ((32 <=? c) && (c <=? 126))%N eqn:Hc.
  - apply andb_prop in Hc as [H1 H2].
    apply N.leb_le in H1. apply N.leb_le in H2.
    constructor; [split; assumption | constructor].
  - destruct (c <? 0x10000)%N.
    + apply u_escape_printable.
    + apply Forall_app; split; apply u_escape_printable.
Qed.

Lemma encode_basestring_ascii_printable (s : str) :
  Forall printable (encode_basestring_ascii s).
Proof.
  unfold encode_basestring_ascii.
  apply Forall_app; split; [printable_literal | ].
  apply Forall_app; split; [ | printable_literal].
  induction s as [ | c s IH]; simpl; [constructor | ].
  apply Forall_app; split; [apply escape_char_printable | exact IH].
Qed.

Lemma join_printable (sep : str) (parts : list str) :
  Forall printable sep ->
  Forall (Forall printable) parts ->
  Forall printable (join sep parts).
Proof.
  intros Hsep Hparts.
  induction Hparts as [ | x rest Hx Hrest IH]; simpl; [constructor | ].
  destruct rest as [ | y rest']; [exact Hx | ].
  apply Forall_app; split; [exact Hx | ].
  apply Forall_app; split; [exact Hsep | exact IH].
Qed.

Lemma json_dumps_printable : forall v : value, Forall printable (json_dumps v).
Proof.
  fix IH 1.
  intros [ | [ | ] | n | f | s | l | d]; cbn [json_dumps].
  - printable_literal.
  - printable_literal.
  - printable_literal.
  - apply int_repr_printable.
  - apply float_repr_printable.
  - apply encode_basestring_ascii_printable.
  - apply Forall_app; split; [printable_literal | ].
    apply Forall_app; split; [ | printable_literal].
    apply join_printable; [printable_literal | ].
    induction l as [ | x l IHl]; cbn [map]; constructor;
      [apply IH | exact IHl].
  - apply Forall_app; split; [printable_literal | ].
    apply Forall_app; split; [ | printable_literal].
    apply join_printable; [printable_literal | ].
    induction d as [ | [k x] d IHd]; cbn [map]; constructor; [ | exact IHd].
    apply Forall_app; split; [apply encode_basestring_ascii_printable | ].
    apply Forall_app; split; [printable_literal | apply IH].
Qed.

(** ** Encoding an ASCII text *)

Lemma utf8_encode_ascii (s : str) :
  Forall (fun c => (c < 128)%N) s -> utf8_encode s = Some s.
Proof.
  induction 1 as [ | c s Hc Hs IH]; simpl; [reflexivity | ].
  unfold utf8_char.
  replace (c <? 128)%N with true by (symmetry; apply N.ltb_lt; exact Hc).
  rewrite IH. reflexivity.
Qed.

Lemma str_encode_line (v : value) :
  str_encode (json_dumps v ++ [10%N]) = Returned (wire v).
Proof.
  unfold str_encode, wire. rewrite utf8_encode_ascii.
  - rewrite map_app. reflexivity.
  - apply Forall_app; split.
    + eapply Forall_impl; [ | apply json_dumps_printable].
      unfold printable. intros; lia.
    + constructor; [lia | constructor].
Qed.




(** ** [json.loads] never runs out of fuel *)

Lemma skip_ws_length (s : str) : List.length (skip_ws s) <= List.length s.
Proof.
  induction s as [ | c s IH]; simpl; [lia | ].
  destruct (is_ws c); simpl; lia.
Qed.

Lemma span_digits_length (s : str) :
  List.length (snd (span_digits s)) <= List.length s.
Proof.
  induction s as [ | c s IH]; simpl; [lia | ].
  destruct (is_digit c); [ | simpl; lia].
  destruct (span_digits s); simpl in *; lia.
Qed.

Lemma match_integer_length (s : str) neg ds r :
  match_integer s = Some (neg, ds, r) -> List.length r < List.length s.
Proof.
  assert (Hint : forall (s0 : str) (b : bool),
            match s0 with
            | [] => None
            | c :: t =>
                if (c =? 48)%N then Some (b, [c], t)
                else if between 49 c 57
                     then let (d, r0) := span_digits t in Some (b, c :: d, r0)
                     else None
            end = Some (neg, ds, r) ->
            List.length r < List.length s0).
  { intros [ | c t] b H; [discriminate | ].
    destruct (c =? 48)%N; [inversion H; subst; simpl; lia | ].
    destruct (between 49 c 57); [ | discriminate].
    pose proof (span_digits_length t) as Hd.
    destruct (span_digits t) as [d r0]. inversion H; subst.
    simpl in *. lia. }
  unfold match_integer. destruct s as [ | c t]; [discriminate | ].
  destruct (c =? 45)%N; intros H.
  - apply (Hint t true) in H. simpl. lia.
  - apply (Hint (c :: t) false) in H. exact H.
Qed.

Lemma match_frac_length (s : str) :
  List.length (snd (match_frac s)) <= List.length s.
Proof.
  unfold match_frac. destruct s as [ | c t]; [simpl; lia | ].
  destruct (c =? 46)%N; [ | simpl; lia].
  pose proof (span_digits_length t) as Hd.
  destruct (span_digits t) as [[ | d ds] r]; simpl in *; lia.
Qed.

Lemma match_exp_length (s : str) :
  List.length (snd (match_exp s)) <= List.length s.
Proof.
  unfold match_exp. destruct s as [ | c t]; [simpl; lia | ].
  destruct ((c =? 101) || (c =? 69))%N; [ | simpl; lia].
  destruct t as [ | c2 t2].
  - simpl. lia.
  - destruct ((c2 =? 43) || (c2 =? 45))%N.
    + pose proof (span_digits_length t2) as Hd.
      destruct (span_digits t2) as [[ | d ds] r]; simpl in *; lia.
    + pose proof (span_digits_length (c2 :: t2)) as Hd.
      destruct (span_digits (c2 :: t2)) as [[ | d ds] r]; simpl in *; lia.
Qed.

Lemma match_number_length (s : str) v rest :
  match_number s = Some (v, rest) -> List.length rest < List.length s.
Proof.
  unfold match_number.
  destruct (match_integer s) as [[[neg ds] r] | ] eqn:Hi; [ | discriminate].
  apply match_integer_length in Hi.
  pose proof (match_frac_length r) as Hf.
  destruct (match_frac r) as [frac r1].
  pose proof (match_exp_length r1) as He.
  destruct (match_exp r1) as [exp r2]. simpl in Hf, He.
  destruct frac, exp; intros H; inversion H; subst; lia.
Qed.

Lemma startswith_length (s p : str) :
  startswith s p = true ->
  List.length (skipn (List.length p) s) + List.length p = List.length s.
Proof.
  revert s. induction p as [ | x p IH]; intros s H; simpl in *; [lia | ].
  destruct s as [ | y s]; [discriminate | ].
  apply andb_prop in H as [_ H]. apply IH in H. simpl. lia.
Qed.

Lemma prepend_some (c : N) r k rest :
  prepend c r = Some (k, rest) -> exists k', r = Some (k', rest).
Proof.
  destruct r as [[k' rest'] | ]; simpl; intros H; inversion H; subst; eauto.
Qed.

Lemma scanstring_length : forall (n : nat) (s k rest : str),
  List.length s <= n ->
  scanstring s = Some (k, rest) -> List.length rest < List.length s.
Proof.
  induction n as [ | n IH]; intros s k rest Hn H.
  - destruct s; [discriminate | simpl in Hn; lia].
  - destruct s as [ | c t]; [discriminate | ].
    cbn [List.length] in Hn. cbn [scanstring] in H.
    repeat match type of H with
           | prepend _ (scanstring _) = Some _ =>
               apply prepend_some in H as [? H];
               apply IH in H; [ | cbn [List.length] in *; lia]
           | (if ?b then _ else _) = _ => destruct b
           | match ?x with _ => _ end = _ => destruct x
           | Some _ = Some _ => inversion H; subst; clear H
           | None = Some _ => discriminate H
           end;
      cbn [List.length] in *; lia.
Qed.

Lemma scanstring_shorter (s k rest : str) :
  scanstring s = Some (k, rest) -> List.length rest < List.length s.
Proof.
  apply (@scanstring_length (List.length s)). apply le_n.
Qed.

Lemma startswith_skipn_shorter (s p : str) (n : nat) :
  n = List.length p ->
  0 < n ->
  startswith s p = true ->
  List.length (skipn n s) < List.length s.
Proof.
  intros -> Hn H. apply startswith_length in H. lia.
Qed.

(** Destructs the next test of a scanning function in hypothesis [H],
    keeping what each helper says of the lengths. *)
Ltac scan_step H IH :=
  match type of H with
  | match scanstring ?x with _ => _ end = _ =>
      let E := fresh "E" in
      destruct (scanstring x) as [[? ?] | ] eqn:E;
      [apply scanstring_shorter in E | ]
  | match match_number ?x with _ => _ end = _ =>
      let E := fresh "E" in
      destruct (match_number x) as [[? ?] | ] eqn:E;
      [apply match_number_length in E | ]
  | match skip_ws ?x with _ => _ end = _ =>
      let L := fresh "L" in
      pose proof (skip_ws_length x) as L; destruct (skip_ws x)
  | match scan_once ?f ?x with _ => _ end = _ =>
      let E := fresh "E" in
      destruct (scan_once f x) eqn:E; [apply IH in E | | ]
  | (if startswith ?x ?p then Ok _ (skipn ?k ?x) else _) = _ =>
      let E := fresh "E" in
      destruct (startswith x p) eqn:E;
      [apply (@startswith_skipn_shorter x p k eq_refl) in E; [ | lia] | ]
  | (if ?b then _ else _) = _ => destruct b
  | match ?x with _ => _ end = _ => destruct x
  | array_items _ _ _ = Ok _ _ => apply IH in H
  | object_items _ _ _ = Ok _ _ => apply IH in H
  | Ok _ _ = Ok _ _ => inversion H; subst; clear H
  | Fail = Ok _ _ => discriminate H
  | Deep = Ok _ _ => discriminate H
  end.

Ltac scan_done :=
  cbn [List.length] in *;
  repeat match goal with
         | H : context [List.length (skip_ws ?x)] |- _ =>
             lazymatch goal with
             | _ : List.length (skip_ws x) <= List.length x |- _ => fail
             | _ => pose proof (skip_ws_length x)
             end
         | |- context [List.length (skip_ws ?x)] =>
             lazymatch goal with
             | _ : List.length (skip_ws x) <= List.length x |- _ => fail
             | _ => pose proof (skip_ws_length x)
             end
         end;
  first [lia | assumption].

Lemma scan_consumes : forall fuel : nat,
  (forall s v rest,
     scan_once fuel s = Ok v rest -> List.length rest < List.length s)
  /\ (forall acc s v rest,
        array_items fuel acc s = Ok v rest ->
        List.length rest < List.length s)
  /\ (forall pairs s v rest,
        object_items fuel pairs s = Ok v rest ->
        List.length rest < List.length s).
Proof.
  induction fuel as [ | f (IH1 & IH2 & IH3)];
    [repeat split; intros; discriminate | ].
  split; [ | split].
  - intros s v rest H. cbn [scan_once] in H.
    repeat (first [scan_step H IH1 | scan_step H IH2 | scan_step H IH3]);
      scan_done.
  - intros acc s v rest H. cbn [array_items] in H.
    repeat (first [scan_step H IH1 | scan_step H IH2 | scan_step H IH3]);
      scan_done.
  - intros pairs s v rest H. cbn [object_items] in H.
    repeat (first [scan_step H IH1 | scan_step H IH2 | scan_step H IH3]);
      scan_done.
Qed.

(** The same on a goal that says the fuel lasts. *)
Ltac fuel_step C1 IH1 IH2 IH3 :=
  match goal with
  | |- match scanstring ?x with _ => _ end <> Deep =>
      let E := fresh "E" in
      destruct (scanstring x) as [[? ?] | ] eqn:E;
      [apply scanstring_shorter in E | ]
  | |- match skip_ws ?x with _ => _ end <> Deep =>
      let L := fresh "L" in
      pose proof (skip_ws_length x) as L; destruct (skip_ws x)
  | |- match scan_once ?f ?x with _ => _ end <> Deep =>
      let E := fresh "E" in
      destruct (scan_once f x) eqn:E;
      [apply C1 in E | | exfalso; revert E; apply IH1; scan_done]
  | |- (if ?b then _ else _) <> Deep => destruct b
  | |- match ?x with _ => _ end <> Deep => destruct x
  | |- Ok _ _ <> Deep => discriminate
  | |- Fail <> Deep => discriminate
  | |- array_items _ _ _ <> Deep => apply IH2; scan_done
  | |- object_items _ _ _ <> Deep => apply IH3; scan_done
  end.

Lemma scan_fuel : forall fuel : nat,
  (forall s, 2 * List.length s + 1 <= fuel -> scan_once fuel s <> Deep)
  /\ (forall acc s, 2 * List.length s + 2 <= fuel ->
        array_items fuel acc s <> Deep)
  /\ (forall pairs s, 2 * List.length s + 2 <= fuel ->
        object_items fuel pairs s <> Deep).
Proof.
  induction fuel as [ | f (IH1 & IH2 & IH3)];
    [repeat split; intros; lia | ].
  destruct (scan_consumes f) as (C1 & _ & _).
  split; [ | split].
  - intros s Hs. cbn [scan_once].
    repeat fuel_step C1 IH1 IH2 IH3.
  - intros acc s Hs. cbn [array_items].
    repeat fuel_step C1 IH1 IH2 IH3.
  - intros pairs s Hs. cbn [object_items].
    repeat fuel_step C1 IH1 IH2 IH3.
Qed.

(** [json.loads] raises no RecursionError: the fuel it starts from is enough
    for every text. *)
Lemma json_loads_fuel (s : str) : json_loads s <> Raised RecursionError.
Proof.
  unfold json_loads.
  destruct (startswith s [0xfeff%N]); [discriminate | ].
  pose proof (skip_ws_length s) as L.
  destruct (scan_once _ _) as [v rest | | ] eqn:E;
    [destruct (skip_ws rest); discriminate | discriminate | ].
  exfalso. revert E. apply (proj1 (scan_fuel _)). lia.
Qed.

(** ** What each coroutine does, by the state of the client *)

Ltac unfold_coro :=
  unfold send_request, stop_server, start_server, bind, get_process,
    get_request_id, set_request_id, set_process, lift, ret, raise,
    stdin_write, stdin_drain, stdout_readline, terminate, wait, on_process.

Lemma send_request_unstarted self method params answer :
  process self = None ->
  send_request method params answer self
  = (Raised (RuntimeError (py "Server not started")), self, []).
Proof.
  intros Hp. unfold_coro. rewrite Hp. reflexivity.
Qed.

Lemma send_request_finished self p method params answer :
  process self = Some p ->
  finished p = true ->
  send_request method params answer self
  = (Raised ConnectionResetError,
     {| process := Some p; request_id := request_id self + 1 |}, []).
Proof.
  intros Hp Hf. destruct self as [proc rid].
  cbn [process request_id] in *. subst proc.
  unfold_coro. cbn [process request_id].
  change (VDict [(py "jsonrpc", VStr (py "2.0")); (py "id", VInt (rid + 1));
                 (py "method", VStr method); (py "params", VDict params)])
    with (envelope (rid + 1) method params).
  rewrite str_encode_line. cbn [process request_id]. rewrite Hf.
  reflexivity.
Qed.

Lemma send_request_running self p method params answer :
  process self = Some p ->
  finished p = false ->
  send_request method params answer self
  = (rbind (fst (readline (child_step answer p))) decode_response,
     {| process := Some (snd (readline (child_step answer p)));
        request_id := request_id self + 1 |},
     [Write (wire (envelope (request_id self + 1) method params))]).
Proof.
  intros Hp Hf. destruct self as [proc rid].
  cbn [process request_id] in *. subst proc.
  unfold_coro. cbn [process request_id].
  change (VDict [(py "jsonrpc", VStr (py "2.0")); (py "id", VInt (rid + 1));
                 (py "method", VStr method); (py "params", VDict params)])
    with (envelope (rid + 1) method params).
  rewrite str_encode_line. cbn [process request_id]. rewrite Hf.
  assert (Hw : exists b bs, wire (envelope (rid + 1) method params) = b :: bs)
    by (unfold wire, envelope; cbn [json_dumps app map]; eauto).
  destruct Hw as (b & bs & Hw). rewrite Hw.
  cbn [process request_id app].
  destruct (readline (child_step answer p)) as [r p'].
  cbn [fst snd process request_id].
  unfold decode_response.
  destruct r as [line | e | ]; cbn [rbind]; [ | reflexivity | reflexivity].
  destruct (bytes_decode line) as [text | e | ]; cbn [rbind];
    [ | reflexivity | reflexivity].
  destruct (json_loads text); reflexivity.
Qed.

Lemma call_tool_unfold tool_name arguments answer self :
  call_tool tool_name arguments answer self
  = match send_request (py "tools/call") (tool_params tool_name arguments)
            answer self with
    | (r, self', ev) => (rbind r extract, self', ev)
    end.
Proof.
  unfold call_tool, bind, tool_params.
  destruct (send_request _ _ _ self) as [[r self'] ev].
  destruct r as [response | e | ]; [ | reflexivity | reflexivity].
  cbn [rbind]. unfold extract, lift, raise.
  repeat (match goal with
          | |- context [py_in ?a ?b] => destruct (py_in a b) as [[ | ] | ? | ]
          | |- context [py_getitem ?a ?b] => destruct (py_getitem a b)
          | |- context [py_get ?a ?b ?c] => destruct (py_get a b c)
          | |- context [py_index ?a ?b] => destruct (py_index a b)
          end; cbn [rbind]);
    rewrite ?app_nil_r; reflexivity.
Qed.

Lemma call_tool_running self p tool_name arguments answer :
  process self = Some p ->
  finished p = false ->
  call_tool tool_name arguments answer self
  = (rbind (rbind (fst (readline (child_step answer p))) decode_response)
       extract,
     {| process := Some (snd (readline (child_step answer p)));
        request_id := request_id self + 1 |},
     [Write (wire (envelope (request_id self + 1) (py "tools/call")
                     (tool_params tool_name arguments)))]).
Proof.
  intros Hp Hf. rewrite call_tool_unfold.
  rewrite (send_request_running _ _ _ _ Hp Hf). reflexivity.
Qed.

Lemma stop_server_unstarted self :
  process self = None -> stop_server self = (Returned tt, self, []).
Proof.
  intros Hp. unfold_coro. rewrite Hp. reflexivity.
Qed.

Lemma stop_server_running self p :
  process self = Some p ->
  finished p = false ->
  stop_server self
  = (Returned tt,
     {| process := Some {| finished := true;
                           stdout_buffer := stdout_buffer p |};
        request_id := request_id self |},
     [Terminate]).
Proof.
  intros Hp Hf. destruct self as [proc rid].
  cbn [process request_id] in *. subst proc.
  unfold_coro. cbn [process request_id]. rewrite Hf. reflexivity.
Qed.

Lemma stop_server_finished self p :
  process self = Some p ->
  finished p = true ->
  stop_server self
  = (Raised ProcessLookupError,
     {| process := Some p; request_id := request_id self |}, []).
Proof.
  intros Hp Hf. destruct self as [proc rid].
  cbn [process request_id] in *. subst proc.
  unfold_coro. cbn [process request_id]. rewrite Hf. reflexivity.
Qed.

(** ** Sequences of calls *)


Lemma writes_app (ev1 ev2 : list event) :
  writes (ev1 ++ ev2) = writes ev1 ++ writes ev2.
Proof.
  induction ev1 as [ | [ | data | ] ev1 IH]; simpl; rewrite ?IH; reflexivity.
Qed.

(** send_request by the state of the client: the counter and the line. *)
Lemma send_request_step self method params answer :
  request_id (snd (fst (send_request method params answer self)))
  = (request_id self
     + match process self with Some _ => 1 | None => 0 end)%Z
  /\ writes (snd (send_request method params answer self))
     = if running self
       then [wire (envelope (request_id self + 1) method params)]
       else [].
Proof.
  unfold running.
  destruct (process self) as [p | ] eqn:Hp.
  - destruct (finished p) eqn:Hf.
    + rewrite (@send_request_finished self p method params answer Hp Hf).
      split; reflexivity.
    + rewrite (@send_request_running self p method params answer Hp Hf).
      split; reflexivity.
  - rewrite (@send_request_unstarted self method params answer Hp).
    cbn [fst snd writes]. split; [lia | reflexivity].
Qed.

Lemma issued_id (c : call) (self : MCPClient) (r : request) :
  issued (c, self) = Some r -> id_of r = (request_id self + 1)%Z.
Proof.
  destruct c; cbn [issued]; try discriminate;
    destruct (process self); try discriminate;
    intros H; inversion H; reflexivity.
Qed.

(** One call: what becomes of the counter, and what is written. *)
Lemma perform_step (c : call) (self : MCPClient) :
  request_id (snd (fst (perform c self)))
  = (request_id self
     + match issued (c, self) with Some _ => 1 | None => 0 end)%Z
  /\ step_writes (c, self)
     = match issued (c, self) with
       | Some r => if running self then [wire_of r] else []
       | None => []
       end.
Proof.
  unfold step_writes. cbn [fst snd].
  destruct c as [spawned | method params answer | tool_name arguments answer
                | | ]; cbn [perform issued].
  - destruct self as [proc rid].
    destruct spawned as [p | e | ]; cbn; split; solve [reflexivity | lia].
  - destruct (send_request_step self method params answer) as [Hid Hw].
    unfold discard.
    destruct (send_request method params answer self) as [[r s0] ev].
    cbn [fst snd] in *. rewrite Hid, Hw. unfold running.
    destruct (process self) as [p | ]; split; reflexivity.
  - rewrite call_tool_unfold.
    destruct (send_request_step self (py "tools/call")
                (tool_params tool_name arguments) answer) as [Hid Hw].
    unfold discard.
    destruct (send_request (py "tools/call")
                (tool_params tool_name arguments) answer self)
      as [[r s0] ev].
    cbn [fst snd] in *. rewrite Hid, Hw. unfold running.
    destruct (process self) as [p | ]; split; reflexivity.
  - destruct (process self) as [p | ] eqn:Hp.
    + destruct (finished p) eqn:Hf.
      * rewrite (@stop_server_finished self p Hp Hf). cbn.
        split; [lia | reflexivity].
      * rewrite (@stop_server_running self p Hp Hf). cbn.
        split; [lia | reflexivity].
    + rewrite (@stop_server_unstarted self Hp). cbn.
      split; [lia | reflexivity].
  - cbn. split; [lia | reflexivity].
Qed.

Lemma perform_writes_own (c : call) (self : MCPClient) :
  writes_own_request (c, self).
Proof.
  unfold writes_own_request.
  destruct (perform_step c self) as [_ Hw]. rewrite Hw. cbn [snd].
  destruct (issued (c, self)) as [r | ]; [ | reflexivity].
  destruct (running self).
  - split; [right; reflexivity | intros _ _; reflexivity].
  - split; [left; reflexivity | discriminate].
Qed.

Lemma steps_write_own (calls : list call) : forall self : MCPClient,
  Forall writes_own_request (steps calls self).
Proof.
  induction calls as [ | c calls IH]; intros self; cbn [steps];
    constructor.
  - apply perform_writes_own.
  - destruct (perform c self) as [[[ | ] self1] ev1];
      [apply IH | constructor].
Qed.

Lemma count_from_sorted (len : nat) : forall n : Z,
  StronglySorted Z.lt (count_from n len)
  /\ Forall (fun k => n <= k)%Z (count_from n len).
Proof.
  induction len as [ | len IH]; intros n; cbn [count_from].
  - split; constructor.
  - destruct (IH (n + 1)%Z) as [Hsorted Hle]. split.
    + constructor; [exact Hsorted | ].
      eapply Forall_impl; [ | exact Hle]. cbn. intros; lia.
    + constructor; [lia | ].
      eapply Forall_impl; [ | exact Hle]. cbn. intros; lia.
Qed.

(** A run: the ids its calls take, its counter and its lines. *)
Lemma run_steps (calls : list call) : forall self : MCPClient,
  map id_of (requests_of (steps calls self))
  = count_from (request_id self + 1)
      (List.length (requests_of (steps calls self)))
  /\ request_id (fst (run calls self))
     = (request_id self
        + Z.of_nat (List.length (requests_of (steps calls self))))%Z
  /\ writes (snd (run calls self))
     = List.concat (map step_writes (steps calls self)).
Proof.
  induction calls as [ | c calls IH]; intros self.
  - cbn. repeat split. lia.
  - cbn [steps run requests_of map List.concat].
    destruct (perform_step c self) as [Hid _].
    pose proof (@issued_id c self) as Hr.
    change (step_writes (c, self)) with (writes (snd (perform c self))).
    destruct (perform c self) as [[go self1] ev1]. cbn [fst snd] in *.
    destruct go.
    + destruct (IH self1) as (Hids & Hcount & Hw).
      destruct (run calls self1) as [self2 ev2]. cbn [fst snd] in *.
      rewrite writes_app, Hw.
      destruct (issued (c, self)) as [r | ].
      * cbn [map List.length count_from].
        rewrite (Hr r eq_refl), Hids.
        replace (request_id self1 + 1)%Z with (request_id self + 1 + 1)%Z
          by lia.
        repeat split. lia.
      * replace (request_id self1) with (request_id self) in * by lia.
        repeat split; assumption.
    + cbn [fst snd map List.concat steps requests_of]. rewrite app_nil_r.
      destruct (issued (c, self)) as [r | ].
      * cbn [map List.length count_from requests_of].
        rewrite (Hr r eq_refl). repeat split. lia.
      * cbn [map List.length count_from requests_of]. repeat split. lia.
Qed.

Lemma StronglySorted_lt_NoDup (l : list Z) :
  StronglySorted Z.lt l -> NoDup l.
Proof.
  induction 1 as [ | x l Hl IH Hx]; constructor; [ | exact IH].
  intros Hin. rewrite Forall_forall in Hx. specialize (Hx x Hin). lia.
Qed.

(** ** The claims *)

(** C1.  Over any sequence of calls on one client (start_server,
    send_request, call_tool and stop_server in any order and with any answers
    of the child, the child possibly exiting in between), every call of
    send_request, direct or through call_tool, that finds a process handle
    takes the counter plus one for the id of its envelope.  The ids taken
    are consecutive from the counter the sequence started at, hence strictly
    increasing and without repeats, and the counter ends at the last of
    them.  A call writes nothing (its id is spent all the same) or the line
    of its own envelope, and that line whenever the child is running and
    [json.dumps] accepts the envelope; the lines of the run are those of its
    calls, in order. *)
Theorem request_ids_strictly_increasing (calls : list call) (self : MCPClient) :
  let taken := requests_of (steps calls self) in
  map id_of taken = count_from (request_id self + 1) (List.length taken)
  /\ request_id (fst (run calls self))
     = (request_id self + Z.of_nat (List.length taken))%Z
  /\ StronglySorted Z.lt (map id_of taken)
  /\ NoDup (map id_of taken)
  /\ Forall writes_own_request (steps calls self)
  /\ writes (snd (run calls self))
     = List.concat (map step_writes (steps calls self)).
Proof.
  intros taken. unfold taken.
  destruct (run_steps calls self) as (Hids & Hcount & Hw).
  assert (Hsorted : StronglySorted Z.lt
                      (map id_of (requests_of (steps calls self)))).
  { rewrite Hids. apply count_from_sorted. }
  repeat split; trivial.
  - apply StronglySorted_lt_NoDup, Hsorted.
  - apply steps_write_own.
Qed.

(** C2.  When the decoded response is a mapping with an "error" key,
    call_tool raises the exception of line 62 carrying the value under that
    key (ToolError).  The client is left as the exchange alone leaves it: the
    counter one higher, the line consumed.  A following call_tool whose
    answer is a well-shaped result returns its text and carries the next
    id. *)
Theorem error_response_raises_tool_error
  (self : MCPClient) (p p' : Process) (tool_name : str) (arguments : dict)
  (answer : reply) (line : bytes) (d : dict) (payload : value) :
  process self = Some p ->
  finished p = false ->
  readline (child_step answer p) = (Returned line, p') ->
  decode_response line = Returned (VDict d) ->
  dict_get d (py "error") = Some payload ->
  let self' := {| process := Some p'; request_id := request_id self + 1 |} in
  call_tool tool_name arguments answer self
  = (Raised (ToolException payload), self',
     [Write (wire (envelope (request_id self + 1) (py "tools/call")
                     (tool_params tool_name arguments)))])
  /\ self' = snd (fst (send_request (py "tools/call")
                         (tool_params tool_name arguments) answer self))
  /\ forall (tool2 : str) (args2 : dict) (answer2 : reply) (line2 : bytes)
            (p2 : Process) (d2 r2 item : dict) (rest : list value)
            (text : value),
       finished p' = false ->
       readline (child_step answer2 p') = (Returned line2, p2) ->
       decode_response line2 = Returned (VDict d2) ->
       dict_get d2 (py "error") = None ->
       dict_get d2 (py "result") = Some (VDict r2) ->
       dict_get r2 (py "content") = Some (VList (VDict item :: rest)) ->
       dict_get item (py "text") = Some text ->
       call_tool tool2 args2 answer2 self'
       = (Returned text,
          {| process := Some p2; request_id := request_id self + 2 |},
          [Write (wire (envelope (request_id self + 2) (py "tools/call")
                          (tool_params tool2 args2)))]).
Proof.
  intros Hp Hf Hread Hdec Herr self'. split; [ | split].
  - rewrite (@call_tool_running self p tool_name arguments answer Hp Hf), Hread. cbn [fst snd rbind].
    rewrite Hdec. cbn [rbind]. unfold extract, py_in, dict_contains.
    rewrite Herr. cbn [rbind py_getitem]. rewrite Herr. reflexivity.
  - rewrite (@send_request_running self p _ _ answer Hp Hf), Hread. reflexivity.
  - intros tool2 args2 answer2 line2 p2 d2 r2 item rest text
      Hf' Hread2 Hdec2 Hnoerr Hres Hcont Htext.
    rewrite (@call_tool_running self' p' tool2 args2 answer2 eq_refl Hf').
    rewrite Hread2. cbn [fst snd rbind]. rewrite Hdec2. cbn [rbind].
    unfold extract, py_in, dict_contains. rewrite Hnoerr.
    cbn [rbind py_get]. rewrite Hres. cbn [rbind py_get]. rewrite Hcont.
    cbn [rbind py_get py_index nth_error Z.ltb Z.compare Z.to_nat].
    rewrite Htext. unfold self'. cbn [request_id].
    replace (request_id self + 1 + 1)%Z with (request_id self + 2)%Z by lia.
    reflexivity.
Qed.

(** C3, amended.  When the decoded response is a mapping without "error",
    and its "result" is missing, or its result mapping has no "content", or
    the first content item is a mapping without "text", call_tool does not
    fail: the defaults of the three [get] calls make it return None. *)
Theorem missing_fields_yield_none
  (self : MCPClient) (p p' : Process) (tool_name : str) (arguments : dict)
  (answer : reply) (line : bytes) (d : dict) :
  process self = Some p ->
  finished p = false ->
  readline (child_step answer p) = (Returned line, p') ->
  decode_response line = Returned (VDict d) ->
  dict_get d (py "error") = None ->
  dict_get d (py "result") = None
  \/ (exists r : dict,
        dict_get d (py "result") = Some (VDict r)
        /\ dict_get r (py "content") = None)
  \/ (exists (r item : dict) (rest : list value),
        dict_get d (py "result") = Some (VDict r)
        /\ dict_get r (py "content") = Some (VList (VDict item :: rest))
        /\ dict_get item (py "text") = None) ->
  fst (fst (call_tool tool_name arguments answer self)) = Returned VNone.
Proof.
  intros Hp Hf Hread Hdec Hnoerr Hshape.
  rewrite (@call_tool_running self p tool_name arguments answer Hp Hf), Hread. cbn [fst snd rbind].
  rewrite Hdec. cbn [rbind]. unfold extract, py_in, dict_contains.
  rewrite Hnoerr. cbn [rbind py_get].
  destruct Hshape as [Hres | [(r & Hres & Hcont)
                             | (r & item & rest & Hres & Hcont & Htext)]];
    rewrite Hres; cbn [rbind py_get]; try rewrite Hcont;
    cbn [rbind py_get py_index nth_error Z.ltb Z.compare Z.to_nat dict_get];
    try rewrite Htext; reflexivity.
Qed.




(** C7.  When the decoded response is a mapping without "error" whose
    result is a mapping with a content list whose first item is a mapping
    with a "text", call_tool returns that text, the item at index 0. *)
Theorem call_tool_returns_first_text
  (self : MCPClient) (p p' : Process) (tool_name : str) (arguments : dict)
  (answer : reply) (line : bytes) (d r item : dict) (rest : list value)
  (text : str) :
  process self = Some p ->
  finished p = false ->
  readline (child_step answer p) = (Returned line, p') ->
  decode_response line = Returned (VDict d) ->
  dict_get d (py "error") = None ->
  dict_get d (py "result") = Some (VDict r) ->
  dict_get r (py "content") = Some (VList (VDict item :: rest)) ->
  dict_get item (py "text") = Some (VStr text) ->
  fst (fst (call_tool tool_name arguments answer self))
  = Returned (VStr text).
Proof.
  intros Hp Hf Hread Hdec Hnoerr Hres Hcont Htext.
  rewrite (@call_tool_running self p tool_name arguments answer Hp Hf), Hread. cbn [fst snd rbind].
  rewrite Hdec. cbn [rbind]. unfold extract, py_in, dict_contains.
  rewrite Hnoerr. cbn [rbind py_get]. rewrite Hres. cbn [rbind py_get].
  rewrite Hcont.
  cbn [rbind py_get py_index nth_error Z.ltb Z.compare Z.to_nat].
  rewrite Htext. reflexivity.
Qed.


(** C9.  send_request returns whatever the response line decodes to; the
    id inside it is not looked at, so the outcome is the same whatever
    the counter of the client, hence whatever id was just sent. *)
Theorem response_id_never_checked
  (self : MCPClient) (p p' : Process) (method : str) (params : dict)
  (answer : reply) (line : bytes) :
  process self = Some p ->
  finished p = false ->
  readline (child_step answer p) = (Returned line, p') ->
  fst (fst (send_request method params answer self)) = decode_response line
  /\ forall n : Z,
       fst (fst (send_request method params answer
                   {| process := Some p; request_id := n |}))
       = fst (fst (send_request method params answer self)).
Proof.
  intros Hp Hf Hread. split.
  - rewrite (@send_request_running self p _ _ answer Hp Hf), Hread. reflexivity.
  - intros n.
    rewrite (@send_request_running self p _ _ answer Hp Hf).
    rewrite (@send_request_running {| process := Some p; request_id := n |}
               p method params answer eq_refl Hf).
    reflexivity.
Qed.

(** C10.  When the decoded response is a mapping without "error" whose
    result mapping has an empty content list, the index 0 of line 64 raises
    IndexError, which call_tool lets through. *)
Theorem empty_content_raises_index_error
  (self : MCPClient) (p p' : Process) (tool_name : str) (arguments : dict)
  (answer : reply) (line : bytes) (d r : dict) :
  process self = Some p ->
  finished p = false ->
  readline (child_step answer p) = (Returned line, p') ->
  decode_response line = Returned (VDict d) ->
  dict_get d (py "error") = None ->
  dict_get d (py "result") = Some (VDict r) ->
  dict_get r (py "content") = Some (VList []) ->
  fst (fst (call_tool tool_name arguments answer self)) = Raised IndexError.
Proof.
  intros Hp Hf Hread Hdec Hnoerr Hres Hcont.
  rewrite (@call_tool_running self p tool_name arguments answer Hp Hf), Hread. cbn [fst snd rbind].
  rewrite Hdec. cbn [rbind]. unfold extract, py_in, dict_contains.
  rewrite Hnoerr. cbn [rbind py_get]. rewrite Hres. cbn [rbind py_get].
  rewrite Hcont. reflexivity.
Qed.

(** ** Further properties: the exchange *)

Lemma readline_one_line (answer : reply) (p : Process) :
  one_line answer ->
  finished p = false ->
  stdout_buffer p = [] ->
  readline (child_step answer p) = (Returned (emitted answer), p).
Proof.
  intros (Hexits & Hsplit & Hlimit) Hf Hbuf.
  destruct p as [fin buf]. cbn in Hf, Hbuf. subst fin buf.
  unfold readline, child_step. cbn [finished stdout_buffer app].
  rewrite Hsplit, Hexits.
  apply N.ltb_ge in Hlimit. rewrite Hlimit. reflexivity.
Qed.

Lemma call_tool_one_line tool_name arguments answer (n : Z) :
  one_line answer ->
  call_tool tool_name arguments answer (running_at n)
  = (tool_outcome (emitted answer), running_at (n + 1),
     [Write (wire_of ((n + 1)%Z, py "tools/call",
                      tool_params tool_name arguments))]).
Proof.
  intros Hone.
  rewrite (@call_tool_running (running_at n) fresh tool_name arguments answer
             eq_refl eq_refl).
  rewrite (@readline_one_line answer fresh Hone eq_refl eq_refl).
  reflexivity.
Qed.



Lemma split_line_app (line rest : bytes) :
  split_line line = Some (line, []) ->
  split_line (line ++ rest) = Some (line, rest).
Proof.
  revert rest. induction line as [ | c line IH]; intros rest H;
    [discriminate | ].
  cbn [split_line app] in *.
  destruct (Byte.eqb c x0a).
  - inversion H. reflexivity.
  - destruct (split_line line) as [[l r] | ] eqn:E; [ | discriminate].
    inversion H; subst. rewrite (IH rest eq_refl). reflexivity.
Qed.

(** X1.  send_request takes one id whenever the client has a process
    handle, whatever becomes of the exchange (the line is dropped because the
    child has exited, the read fails or never completes), and none when the
    handle is missing. *)
Theorem send_request_takes_one_id
  (self : MCPClient) (method : str) (params : dict) (answer : reply) :
  request_id (snd (fst (send_request method params answer self)))
  = (request_id self
     + match process self with Some _ => 1 | None => 0 end)%Z.
Proof.
  destruct (process self) as [p | ] eqn:Hp.
  - destruct (finished p) eqn:Hf.
    + rewrite (@send_request_finished self p method params answer Hp Hf).
      reflexivity.
    + rewrite (@send_request_running self p method params answer Hp Hf).
      reflexivity.
  - rewrite (@send_request_unstarted self method params answer Hp).
    cbn [fst snd]. lia.
Qed.

(** X2.  On a running child, and for a tool name and arguments with
    which [json.dumps] accepts the request, call_tool sends one line
    whatever the answer: the envelope of method tools/call whose params are
    the mapping of "name" and "arguments", in that order.  A failure of the
    call is never followed by a second write. *)
Theorem call_tool_writes_once
  (self : MCPClient) (p : Process) (tool_name : str) (arguments : dict)
  (answer : reply) :
  process self = Some p ->
  finished p = false ->
  encodable (envelope (request_id self + 1) (py "tools/call")
               (tool_params tool_name arguments)) = true ->
  snd (call_tool tool_name arguments answer self)
  = [Write
       (ascii_bytes
          (json_dumps
             (VDict [(py "jsonrpc", VStr (py "2.0"));
                     (py "id", VInt (request_id self + 1));
                     (py "method", VStr (py "tools/call"));
                     (py "params",
                      VDict [(py "name", VStr tool_name);
                             (py "arguments", VDict arguments)])]))
        ++ [x0a])].
Proof.
  intros Hp Hf _.
  rewrite (@call_tool_running self p tool_name arguments answer Hp Hf).
  reflexivity.
Qed.

(** X3.  When the decoded response is not a mapping call_tool always
    fails: with TypeError on null, a boolean or a number (the [in] test),
    on a list that holds the string "error" and on a string that contains
    it (the subscript); with AttributeError on any other list or string
    (the first [get]). *)
Theorem non_mapping_response_fails
  (self : MCPClient) (p p' : Process) (tool_name : str) (arguments : dict)
  (answer : reply) (line : bytes) (response : value) :
  process self = Some p ->
  finished p = false ->
  readline (child_step answer p) = (Returned line, p') ->
  decode_response line = Returned response ->
  (forall d : dict, response <> VDict d) ->
  fst (fst (call_tool tool_name arguments answer self))
  = Raised
      match response with
      | VList l =>
          if existsb (fun x => match x with
                               | VStr s => str_eqb s (py "error")
                               | _ => false
                               end) l
          then TypeError else AttributeError
      | VStr s =>
          if str_contains s (py "error") then TypeError else AttributeError
      | _ => TypeError
      end.
Proof.
  intros Hp Hf Hread Hdec Hnot.
  rewrite (@call_tool_running self p tool_name arguments answer Hp Hf), Hread.
  cbn [fst snd rbind]. rewrite Hdec. cbn [rbind]. unfold extract.
  destruct response as [ | b | z | f | s | l | d]; cbn [py_in rbind];
    try reflexivity.
  - destruct (str_contains s (py "error")); reflexivity.
  - destruct (existsb _ l); reflexivity.
  - exfalso. apply (Hnot d). reflexivity.
Qed.

(** X4.  The decoded response being a mapping without "error": a result
    that is present and not a mapping (null included) raises AttributeError;
    otherwise the content decides.  A list gives the text of its first item
    (None when that mapping has no text), IndexError when empty,
    AttributeError when the first item is not a mapping; a string gives
    IndexError when empty and AttributeError otherwise; a mapping gives
    KeyError; null, a boolean or a number gives TypeError. *)
Theorem wrong_typed_fields_raise
  (self : MCPClient) (p p' : Process) (tool_name : str) (arguments : dict)
  (answer : reply) (line : bytes) (d : dict) :
  process self = Some p ->
  finished p = false ->
  readline (child_step answer p) = (Returned line, p') ->
  decode_response line = Returned (VDict d) ->
  dict_get d (py "error") = None ->
  let outcome := fst (fst (call_tool tool_name arguments answer self)) in
  (forall x : value,
     dict_get d (py "result") = Some x ->
     (forall r : dict, x <> VDict r) ->
     outcome = Raised AttributeError)
  /\ (forall (r : dict) (content : value),
        dict_get d (py "result") = Some (VDict r) ->
        dict_get r (py "content") = Some content ->
        outcome
        = match content with
          | VList [] => Raised IndexError
          | VList (VDict item :: _) =>
              Returned match dict_get item (py "text") with
                       | Some text => text
                       | None => VNone
                       end
          | VList (_ :: _) => Raised AttributeError
          | VStr [] => Raised IndexError
          | VStr (_ :: _) => Raised AttributeError
          | VDict _ => Raised KeyError
          | _ => Raised TypeError
          end).
Proof.
  intros Hp Hf Hread Hdec Hnoerr outcome.
  assert (Hout : outcome = extract (VDict d)).
  { unfold outcome.
    rewrite (@call_tool_running self p tool_name arguments answer Hp Hf),
      Hread.
    cbn [fst snd rbind]. rewrite Hdec. reflexivity. }
  rewrite Hout. unfold extract, py_in, dict_contains. rewrite Hnoerr.
  cbn [rbind py_get]. split.
  - intros x Hres Hnot. rewrite Hres.
    destruct x as [ | b | z | f | s | l | r]; try reflexivity.
    exfalso. apply (Hnot r). reflexivity.
  - intros r content Hres Hcont. rewrite Hres. cbn [rbind py_get].
    rewrite Hcont.
    destruct content as [ | b | z | f | s | l | c]; try reflexivity.
    + destruct s as [ | c0 s]; reflexivity.
    + destruct l as [ | x l]; [reflexivity | ].
      destruct x; reflexivity.
Qed.

(** X5.  A line the child emits beyond the one awaited stays in the
    buffer and is taken for the answer to the next request: the next
    send_request returns its decoding, whatever the child answers then. *)
Theorem extra_line_answers_next_request
  (self : MCPClient) (p : Process) (method1 method2 : str)
  (params1 params2 : dict) (line1 line2 : bytes) (answer2 : reply) :
  process self = Some p ->
  finished p = false ->
  stdout_buffer p = [] ->
  split_line line1 = Some (line1, []) ->
  split_line line2 = Some (line2, []) ->
  (N.of_nat (List.length line1 - 1) <= stream_limit)%N ->
  (N.of_nat (List.length line2 - 1) <= stream_limit)%N ->
  let first :=
    send_request method1 params1
      {| emitted := line1 ++ line2; exits := false |} self in
  let second := send_request method2 params2 answer2 (snd (fst first)) in
  fst (fst first) = decode_response line1
  /\ fst (fst second) = decode_response line2.
Proof.
  intros Hp Hf Hbuf H1 H2 L1 L2 first second.
  assert (Hfirst : send_request method1 params1
                     {| emitted := line1 ++ line2; exits := false |} self
    = (decode_response line1,
       {| process := Some {| finished := false; stdout_buffer := line2 |};
          request_id := request_id self + 1 |},
       [Write (wire (envelope (request_id self + 1) method1 params1))])).
  { rewrite (@send_request_running self p method1 params1 _ Hp Hf).
    unfold readline, child_step. rewrite Hf, Hbuf.
    cbn [finished stdout_buffer exits emitted app].
    rewrite (split_line_app line2 H1).
    apply N.ltb_ge in L1. rewrite L1. reflexivity. }
  unfold second, first. rewrite Hfirst. cbn [fst snd].
  split; [reflexivity | ].
  rewrite (@send_request_running
             {| process := Some {| finished := false;
                                   stdout_buffer := line2 |};
                request_id := request_id self + 1 |}
             {| finished := false; stdout_buffer := line2 |}
             method2 params2 answer2 eq_refl eq_refl).
  unfold readline, child_step. cbn [finished stdout_buffer].
  rewrite (split_line_app (emitted answer2) H2).
  apply N.ltb_ge in L2. rewrite L2. reflexivity.
Qed.

(** X6.  A response line longer than the limit of the stream (64 KiB
    before its newline) makes send_request raise ValueError, not a decode
    error, and the id is spent.  What the stream keeps of such a line
    depends on how its bytes arrived and is left out. *)
Theorem oversized_line_raises_value_error
  (self : MCPClient) (p : Process) (method : str) (params : dict)
  (answer : reply) (line rest : bytes) :
  process self = Some p ->
  finished p = false ->
  stdout_buffer p = [] ->
  emitted answer = line ++ rest ->
  split_line line = Some (line, []) ->
  (stream_limit < N.of_nat (List.length line - 1))%N ->
  encodable (envelope (request_id self + 1) method params) = true ->
  fst (fst (send_request method params answer self)) = Raised ValueError
  /\ request_id (snd (fst (send_request method params answer self)))
     = (request_id self + 1)%Z.
Proof.
  intros Hp Hf Hbuf Hem Hsplit Hlong _.
  rewrite (@send_request_running self p method params answer Hp Hf).
  unfold readline, child_step. rewrite Hf, Hbuf.
  cbn [finished stdout_buffer app]. rewrite Hem.
  rewrite (split_line_app rest Hsplit).
  apply N.ltb_lt in Hlong. rewrite Hlong. split; reflexivity.
Qed.

(** X7.  After stop_server a new start_server makes the client usable
    again, and the ids go on from where they were: the counter is not
    reset. *)
Theorem restart_continues_ids
  (self : MCPClient) (p : Process) (tool_name : str) (arguments : dict)
  (answer : reply) :
  process self = Some p ->
  finished p = false ->
  one_line answer ->
  let stopped := snd (fst (stop_server self)) in
  let restarted := snd (fst (start_server (Returned fresh) stopped)) in
  call_tool tool_name arguments answer restarted
  = (tool_outcome (emitted answer), running_at (request_id self + 1),
     [Write (wire_of ((request_id self + 1)%Z, py "tools/call",
                      tool_params tool_name arguments))]).
Proof.
  intros Hp Hf Hone stopped restarted.
  assert (Hre : restarted = running_at (request_id self)).
  { unfold restarted, stopped.
    rewrite (@stop_server_running self p Hp Hf). reflexivity. }
  rewrite Hre. apply call_tool_one_line, Hone.
Qed.

(** ** Further properties: the demo phases *)












(** X11.  When the child cannot be started each phase returns 1 without
    any event (stop_server finds no process and does nothing), and so does
    [main]. *)
Theorem launch_failure_returns_1
  (e1 e2 : exn) (answers1 answers2 : nat -> reply) :
  demo_random_tools (Raised e1) answers1 = (Returned 1%Z, __init__, [])
  /\ demo_error_handling (Raised e2) answers2 = (Returned 1%Z, __init__, [])
  /\ main (Raised e1) answers1 (Raised e2) answers2 = (Returned 1%Z, []).
Proof.
  repeat split.
Qed.






(** ** Further properties: what the calls can raise *)

Lemma json_loads_raises (s : str) (e : exn) :
  json_loads s = Raised e -> e = JSONDecodeError.
Proof.
  intros H. pose proof (json_loads_fuel s) as Hfuel. revert H Hfuel.
  unfold json_loads.
  destruct (startswith s [0xfeff%N]); [intros H _; congruence | ].
  destruct (scan_once _ _) as [v rest | | ].
  - destruct (skip_ws rest); intros H _; congruence.
  - intros H _; congruence.
  - intros _ Hfuel. congruence.
Qed.

Lemma decode_response_raises (line : bytes) (e : exn) :
  decode_response line = Raised e ->
  e = UnicodeDecodeError \/ e = JSONDecodeError.
Proof.
  unfold decode_response, bytes_decode.
  destruct (utf8_decode (map Byte.to_N line)) as [text | ]; cbn [rbind].
  - intros H. right. apply (json_loads_raises _ H).
  - intros H. left. congruence.
Qed.

Lemma readline_raises (p : Process) (e : exn) :
  fst (readline p) = Raised e -> e = ValueError.
Proof.
  unfold readline.
  destruct (split_line (stdout_buffer p)) as [[line rest] | ].
  - destruct (_ <? _)%N; cbn [fst]; congruence.
  - destruct (_ <? _)%N; cbn [fst]; [congruence | ].
    destruct (finished p); cbn [fst]; congruence.
Qed.

Lemma extract_raises (response : value) (e : exn) :
  extract response = Raised e ->
  e = TypeError \/ e = AttributeError \/ e = IndexError \/ e = KeyError
  \/ exists payload : value,
       e = ToolException payload
       /\ exists d : dict,
            response = VDict d /\ dict_get d (py "error") = Some payload.
Proof.
  unfold extract, py_in, py_getitem, py_get, py_index, dict_contains.
  destruct response as [ | b | z | f | s | l | d]; cbn [rbind];
    try (intros H; left; congruence).
  - destruct (str_contains s (py "error")); cbn [rbind]; intros H;
      [left | right; left]; congruence.
  - destruct (existsb _ l); cbn [rbind]; intros H;
      [left | right; left]; congruence.
  - destruct (dict_get d (py "error")) as [payload | ] eqn:Herr; cbn [rbind].
    + intros H. right. right. right. right. exists payload.
      split; [congruence | ]. exists d. split; [reflexivity | exact Herr].
    + repeat match goal with
             | |- context [match ?x with _ => _ end] =>
                 destruct x; cbn [rbind]
             end;
        intros H; try discriminate H;
        first [ left; congruence
              | right; left; congruence
              | right; right; left; congruence
              | right; right; right; left; congruence ].
Qed.

(** X16.  What send_request can raise, and when, for a method and params
    with which [json.dumps] accepts the request: RuntimeError only without
    a process handle, ConnectionResetError only on a child whose pipes are
    closed, and on a running child only what reading and decoding the
    response raise: ValueError, UnicodeDecodeError, JSONDecodeError or the
    RecursionError of the decoder. *)
Theorem send_request_raises_only
  (self : MCPClient) (method : str) (params : dict) (answer : reply)
  (e : exn) :
  encodable (envelope (request_id self + 1) method params) = true ->
  fst (fst (send_request method params answer self)) = Raised e ->
  (process self = None /\ e = RuntimeError (py "Server not started"))
  \/ ((exists p : Process, process self = Some p /\ finished p = true)
      /\ e = ConnectionResetError)
  \/ ((exists p : Process, process self = Some p /\ finished p = false)
      /\ (e = ValueError \/ e = UnicodeDecodeError \/ e = JSONDecodeError
          \/ e = RecursionError)).
Proof.
  intros _.
  destruct (process self) as [p | ] eqn:Hp.
  - destruct (finished p) eqn:Hf.
    + rewrite (@send_request_finished self p method params answer Hp Hf).
      cbn [fst]. intros H. right. left.
      split; [exists p; split; trivial | congruence].
    + rewrite (@send_request_running self p method params answer Hp Hf).
      cbn [fst]. intros H. right. right.
      split; [exists p; split; trivial | ].
      pose proof (@readline_raises (child_step answer p)) as Hr.
      destruct (fst (readline (child_step answer p))) as [line | e0 | ];
        cbn [rbind] in H.
      * right. destruct (decode_response_raises _ H) as [He | He];
          [left; exact He | right; left; exact He].
      * left. rewrite <- (Hr e0 eq_refl). congruence.
      * discriminate H.
  - rewrite (@send_request_unstarted self method params answer Hp).
    cbn [fst]. intros H. left. split; [reflexivity | congruence].
Qed.

(** X17.  What call_tool can raise: what send_request raises, the
    exception of line 62 when the response is a mapping with an "error" key,
    and TypeError, AttributeError, IndexError or KeyError from the
    extraction of line 64. *)
Theorem call_tool_raises_only
  (self : MCPClient) (tool_name : str) (arguments : dict) (answer : reply)
  (e : exn) :
  fst (fst (call_tool tool_name arguments answer self)) = Raised e ->
  fst (fst (send_request (py "tools/call")
              (tool_params tool_name arguments) answer self)) = Raised e
  \/ (exists payload : value, e = ToolException payload)
  \/ e = TypeError \/ e = AttributeError \/ e = IndexError \/ e = KeyError.
Proof.
  rewrite call_tool_unfold.
  destruct (send_request _ _ answer self) as [[r self'] ev]. cbn [fst].
  destruct r as [response | e0 | ]; cbn [rbind]; intros H.
  - destruct (extract_raises _ H)
      as [He | [He | [He | [He | (payload & He & _)]]]]; subst e.
    + right. right. left. reflexivity.
    + right. right. right. left. reflexivity.
    + right. right. right. right. left. reflexivity.
    + right. right. right. right. right. reflexivity.
    + right. left. exists payload. reflexivity.
  - left. exact H.
  - discriminate H.
Qed.

(** ** Further properties: the request line decodes to the request *)

Ltac div_lia := zify; Z.to_euclidean_division_equations; lia.

Lemma to_N_byte_of_N (c : N) : (c < 256)%N -> Byte.to_N (byte_of_N c) = c.
Proof.
  intros Hc. unfold byte_of_N.
  destruct (Byte.of_N c) as [b | ] eqn:Hb.
  - apply Byte.to_of_N, Hb.
  - apply Byte.of_N_None_iff in Hb. lia.
Qed.

Lemma utf8_decode_ascii (s : str) :
  Forall (fun c => (c < 128)%N) s ->
  utf8_decode (map Byte.to_N (map byte_of_N s)) = Some s.
Proof.
  induction 1 as [ | c s Hc Hs IH]; [reflexivity | ].
  cbn [map utf8_decode]. rewrite to_N_byte_of_N by lia.
  replace (c <? 128)%N with true by (symmetry; apply N.ltb_lt; exact Hc).
  rewrite IH. reflexivity.
Qed.

Lemma hex_val_hex_digit (d : N) :
  (d < 16)%N -> hex_val (hex_digit d) = Some d.
Proof.
  intros Hd. unfold hex_val, hex_digit, between.
  destruct (N.ltb_spec d 10).
  - replace ((48 <=? 48 + d) && (48 + d <=? 57))%N with true.
    + f_equal. lia.
    + symmetry. apply andb_true_intro. split; apply N.leb_le; lia.
  - replace ((48 <=? 87 + d) && (87 + d <=? 57))%N with false.
    + replace ((97 <=? 87 + d) && (87 + d <=? 102))%N with true.
      * f_equal. lia.
      * symmetry. apply andb_true_intro. split; apply N.leb_le; lia.
    + symmetry. apply andb_false_intro2. apply N.leb_gt. lia.
Qed.

Lemma hex4_u_escape (n : N) (rest : str) :
  (n < 65536)%N ->
  exists h1 h2 h3 h4,
    u_escape n ++ rest = 92%N :: 117%N :: h1 :: h2 :: h3 :: h4 :: rest
    /\ hex4 h1 h2 h3 h4 = Some n.
Proof.
  intros Hn. unfold u_escape. do 4 eexists. split; [reflexivity | ].
  unfold hex4.
  rewrite !hex_val_hex_digit by (apply N.mod_lt; discriminate).
  f_equal. div_lia.
Qed.

Lemma lor_low_bits (a m : N) :
  N.land a 1023 = 0%N -> (m < 1024)%N -> N.lor a m = (a + m)%N.
Proof.
  intros Ha Hm.
  assert (Hland : N.land a m = 0%N).
  { replace m with (N.land 1023 m).
    - rewrite N.land_assoc, Ha. apply N.land_0_l.
    - rewrite N.land_comm. change 1023%N with (N.ones 10).
      rewrite N.land_ones. apply N.mod_small. exact Hm. }
  rewrite <- (N.lxor_lor _ _ Hland). symmetry.
  apply N.add_nocarry_lxor, Hland.
Qed.

Lemma surrogates_of (c : N) :
  (0x10000 <= c <= 0x10FFFF)%N ->
  let n := (c - 0x10000)%N in
  N.lor 0xd800 (N.land (N.shiftr n 10) 0x3ff) = (0xd800 + n / 1024)%N
  /\ N.lor 0xdc00 (N.land n 0x3ff) = (0xdc00 + n mod 1024)%N.
Proof.
  intros Hc n.
  change 0x3ff%N with (N.ones 10). rewrite !N.land_ones.
  rewrite N.shiftr_div_pow2. change (2 ^ 10)%N with 1024%N.
  assert (Hq : ((n / 1024) mod 1024 = n / 1024)%N)
    by (apply N.mod_small; unfold n; div_lia).
  rewrite Hq. split; apply lor_low_bits; try reflexivity.
  - unfold n. div_lia.
  - apply N.mod_lt. discriminate.
Qed.

Lemma join_surrogates_of (c : N) :
  (0x10000 <= c <= 0x10FFFF)%N ->
  join_surrogates (0xd800 + (c - 0x10000) / 1024)
    (0xdc00 + (c - 0x10000) mod 1024) = c.
Proof.
  intros Hc. unfold join_surrogates.
  rewrite (N.add_comm 0xd800), N.add_sub, (N.add_comm 0xdc00), N.add_sub.
  rewrite N.shiftl_mul_pow2. change (2 ^ 10)%N with 1024%N.
  rewrite lor_low_bits.
  - div_lia.
  - change 1023%N with (N.ones 10). rewrite N.land_ones.
    apply N.Div0.mod_mul.
  - apply N.mod_lt. discriminate.
Qed.

Lemma scanstring_escaped (s : str) (rest : str) :
  forallb scalar s = true ->
  scanstring (flat_map escape_char s ++ 34%N :: rest) = Some (s, rest).
Proof.
  induction s as [ | c s IH]; intros Hs; [reflexivity | ].
  cbn [forallb] in Hs. apply andb_prop in Hs as [Hc Hs].
  specialize (IH Hs). cbn [flat_map]. rewrite <- app_assoc.
  set (tail := flat_map escape_char s ++ 34%N :: rest) in *.
  unfold escape_char.
  destruct (N.eqb_spec c 34); [subst c; cbn; rewrite IH; reflexivity | ].
  destruct (N.eqb_spec c 92); [subst c; cbn; rewrite IH; reflexivity | ].
  destruct (N.eqb_spec c 10); [subst c; cbn; rewrite IH; reflexivity | ].
  destruct (N.eqb_spec c 13); [subst c; cbn; rewrite IH; reflexivity | ].
  destruct (N.eqb_spec c 9); [subst c; cbn; rewrite IH; reflexivity | ].
  destruct (N.eqb_spec c 12); [subst c; cbn; rewrite IH; reflexivity | ].
  destruct (N.eqb_spec c 8); [subst c; cbn; rewrite IH; reflexivity | ].
  destruct ((32 <=? c) && (c <=? 126))%N eqn:Hprint.
  - apply andb_prop in Hprint as [Hlo Hhi]. apply N.leb_le in Hlo.
    cbn [app scanstring].
    replace (c =? 34)%N with false by (symmetry; apply N.eqb_neq; trivial).
    replace (c =? 92)%N with false by (symmetry; apply N.eqb_neq; trivial).
    replace (c <? 32)%N with false by (symmetry; apply N.ltb_ge; trivial).
    rewrite IH. reflexivity.
  - unfold scalar in Hc.
    destruct (N.ltb_spec c 0x10000) as [Hsmall | Hbig].
    + destruct (hex4_u_escape tail Hsmall) as (h1 & h2 & h3 & h4 & Heq & Hhex).
      rewrite Heq. cbn [scanstring N.eqb Pos.eqb]. rewrite Hhex.
      replace (between 0xd800 c 0xdbff) with false.
      * rewrite IH. reflexivity.
      * symmetry. unfold between.
        destruct (N.leb_spec 0xd800 c); [ | reflexivity].
        destruct (N.leb_spec c 0xdbff); [ | reflexivity].
        exfalso. apply orb_prop in Hc as [Hc | Hc].
        -- apply N.ltb_lt in Hc. lia.
        -- apply andb_prop in Hc as [Hc _]. apply N.leb_le in Hc. lia.
    + assert (Hrange : (0x10000 <= c <= 0x10FFFF)%N).
      { apply orb_prop in Hc as [Hc | Hc].
        - apply N.ltb_lt in Hc. lia.
        - apply andb_prop in Hc as [_ Hc]. apply N.leb_le in Hc. lia. }
      destruct (surrogates_of Hrange) as [Hhi Hlo]. cbv zeta in Hhi, Hlo.
      rewrite Hhi, Hlo. rewrite <- app_assoc.
      assert (Hq : ((c - 0x10000) / 1024 < 1024)%N) by div_lia.
      assert (Hr : ((c - 0x10000) mod 1024 < 1024)%N)
        by (apply N.mod_lt; discriminate).
      destruct (@hex4_u_escape (0xd800 + (c - 0x10000) / 1024)
                  (u_escape (0xdc00 + (c - 0x10000) mod 1024) ++ tail))
        as (h1 & h2 & h3 & h4 & Heq & Hhex); [div_lia | ].
      destruct (@hex4_u_escape (0xdc00 + (c - 0x10000) mod 1024) tail)
        as (g1 & g2 & g3 & g4 & Heq' & Hhex'); [div_lia | ].
      rewrite Heq, Heq'. cbn [scanstring N.eqb Pos.eqb andb].
      rewrite Hhex, Hhex'.
      replace (between 0xd800 (0xd800 + (c - 0x10000) / 1024) 0xdbff)
        with true
        by (symmetry; apply andb_true_intro; split; apply N.leb_le; div_lia).
      replace (between 0xdc00 (0xdc00 + (c - 0x10000) mod 1024) 0xdfff)
        with true
        by (symmetry; apply andb_true_intro; split; apply N.leb_le; div_lia).
      rewrite IH. cbn [prepend]. rewrite (join_surrogates_of Hrange).
      reflexivity.
Qed.


Lemma digits_fold_acc (u : Decimal.uint) : forall p : positive,
  fold_left (fun acc d => (acc * 10 + (d - 48))%N) (uint_digits u) (Npos p)
  = Npos (Pos.of_uint_acc u p).
Proof.
  induction u as [ | u IH | u IH | u IH | u IH | u IH | u IH | u IH | u IH
                 | u IH | u IH]; intros p; cbn [uint_digits fold_left];
    [reflexivity | .. ];
    match goal with
    | |- fold_left _ _ ?a = _ =>
        match type of IH with
        | forall q, _ = N.pos (Pos.of_uint_acc _ q) =>
            cbn [Pos.of_uint_acc];
            match goal with
            | |- _ = N.pos (Pos.of_uint_acc _ ?q) =>
                replace a with (N.pos q) by lia; apply IH
            end
        end
    end.
Qed.

Lemma nat_of_digits_uint (u : Decimal.uint) :
  nat_of_digits (uint_digits u) = Pos.of_uint u.
Proof.
  unfold nat_of_digits.
  induction u as [ | u IH | u IH | u IH | u IH | u IH | u IH | u IH | u IH
                 | u IH | u IH]; cbn [uint_digits fold_left Pos.of_uint];
    [reflexivity | exact IH | .. ];
    match goal with
    | |- fold_left _ _ ?a = N.pos (Pos.of_uint_acc _ ?q) =>
        replace a with (N.pos q) by lia; apply digits_fold_acc
    end.
Qed.

Lemma span_digits_uint (u : Decimal.uint) (rest : str) :
  match rest with [] => True | c :: _ => is_digit c = false end ->
  span_digits (uint_digits u ++ rest) = (uint_digits u, rest).
Proof.
  intros Hrest.
  induction u as [ | u IH | u IH | u IH | u IH | u IH | u IH | u IH | u IH
                 | u IH | u IH]; cbn [uint_digits app];
    try (cbn [span_digits]; rewrite IH; reflexivity).
  destruct rest as [ | c rest]; [reflexivity | ].
  cbn [span_digits]. rewrite Hrest. reflexivity.
Qed.

Lemma to_uint_head (p : positive) :
  exists c t, uint_digits (Pos.to_uint p) = c :: t
              /\ between 49 c 57 = true.
Proof.
  pose proof (DecimalPos.Unsigned.to_uint_nonnil p) as Hnil.
  pose proof (DecimalPos.Unsigned.to_uint_nonzero p) as Hzero.
  assert (Hnorm : Decimal.unorm (Pos.to_uint p) = Pos.to_uint p).
  { rewrite <- DecimalPos.Unsigned.to_of, DecimalPos.Unsigned.of_to.
    reflexivity. }
  destruct (Pos.to_uint p) as [ | u | u | u | u | u | u | u | u | u | u];
    try (eexists _, _; split; reflexivity).
  - congruence.
  - exfalso. rewrite DecimalFacts.unorm_D0 in Hnorm.
    unfold Decimal.unorm in Hnorm.
    pose proof (DecimalFacts.nb_digits_nzhead u) as Hlen.
    destruct (Decimal.nzhead u) eqn:Hhead;
      try (rewrite Hnorm in Hlen; cbn in Hlen; lia).
    apply Hzero. congruence.
Qed.

Lemma match_frac_delimited (rest : str) :
  delimited rest -> match_frac rest = ([], rest).
Proof.
  destruct rest as [ | c rest]; [reflexivity | ].
  intros (_ & Hdot & _). unfold match_frac.
  replace (c =? 46)%N with false by (symmetry; apply N.eqb_neq; trivial).
  reflexivity.
Qed.

Lemma match_exp_delimited (rest : str) :
  delimited rest -> match_exp rest = ([], rest).
Proof.
  destruct rest as [ | c rest]; [reflexivity | ].
  intros (_ & _ & He & HE). unfold match_exp.
  replace (c =? 101)%N with false by (symmetry; apply N.eqb_neq; trivial).
  replace (c =? 69)%N with false by (symmetry; apply N.eqb_neq; trivial).
  reflexivity.
Qed.

Lemma match_integer_digits (p : positive) (rest : str) :
  delimited rest ->
  exists ds,
    match_integer (uint_digits (Pos.to_uint p) ++ rest)
    = Some (false, ds, rest)
    /\ match_integer (45%N :: uint_digits (Pos.to_uint p) ++ rest)
       = Some (true, ds, rest)
    /\ nat_of_digits ds = Npos p.
Proof.
  intros Hrest.
  assert (Hd : match rest with [] => True | c :: _ => is_digit c = false end)
    by (destruct rest; [exact I | apply Hrest]).
  pose proof (span_digits_uint (Pos.to_uint p) rest Hd) as Hspan.
  pose proof (nat_of_digits_uint (Pos.to_uint p)) as Hval.
  rewrite DecimalPos.Unsigned.of_to in Hval.
  destruct (to_uint_head p) as (c & t & Heq & Hc).
  rewrite Heq in *. exists (c :: t).
  assert (Hc' := Hc). unfold between in Hc'.
  apply andb_prop in Hc' as [Hlo Hhi].
  apply N.leb_le in Hlo. apply N.leb_le in Hhi.
  assert (Hdig : is_digit c = true)
    by (apply andb_true_intro; split; apply N.leb_le; lia).
  cbn [app span_digits] in Hspan. rewrite Hdig in Hspan.
  destruct (span_digits (t ++ rest)) as [d r] eqn:Ht.
  inversion Hspan; subst d r.
  unfold match_integer. cbn [app N.eqb Pos.eqb].
  replace (c =? 45)%N with false by (symmetry; apply N.eqb_neq; lia).
  replace (c =? 48)%N with false by (symmetry; apply N.eqb_neq; lia).
  rewrite Hc, Ht. repeat split. exact Hval.
Qed.

Lemma match_number_int_repr (z : Z) (rest : str) :
  delimited rest ->
  match_number (int_repr z ++ rest) = Some (VInt z, rest).
Proof.
  intros Hrest. unfold match_number, int_repr.
  destruct z as [ | p | p]; cbn [Z.to_int].
  - change (uint_digits Decimal.zero ++ rest) with (48%N :: rest).
    change (match_integer (48%N :: rest)) with (Some (false, [48%N], rest)).
    cbv beta iota.
    rewrite (@match_frac_delimited rest Hrest), (@match_exp_delimited rest Hrest).
    reflexivity.
  - destruct (@match_integer_digits p rest Hrest) as (ds & H1 & _ & Hval).
    rewrite H1. cbv beta iota.
    rewrite (@match_frac_delimited rest Hrest), (@match_exp_delimited rest Hrest).
    rewrite Hval. reflexivity.
  - destruct (@match_integer_digits p rest Hrest) as (ds & _ & H2 & Hval).
    cbn [app]. rewrite H2. cbv beta iota.
    rewrite (@match_frac_delimited rest Hrest), (@match_exp_delimited rest Hrest).
    rewrite Hval. reflexivity.
Qed.

Lemma int_repr_head (z : Z) :
  exists c t, int_repr z = c :: t /\ (between 48 c 57 = true \/ c = 45%N).
Proof.
  unfold int_repr. destruct z as [ | p | p]; cbn [Z.to_int].
  - exists 48%N, []. split; [reflexivity | left; reflexivity].
  - destruct (to_uint_head p) as (c & t & Heq & Hc).
    exists c, t. split; [exact Heq | left].
    unfold between in *. apply andb_prop in Hc as [Hlo Hhi].
    apply N.leb_le in Hlo. apply N.leb_le in Hhi.
    apply andb_true_intro; split; apply N.leb_le; lia.
  - eexists _, _. split; [reflexivity | right; reflexivity].
Qed.

Lemma scan_once_number (f : nat) (c : N) (t : str) (v : value) (r : str) :
  between 48 c 57 = true \/ c = 45%N ->
  match_number (c :: t) = Some (v, r) ->
  scan_once (S f) (c :: t) = Ok v r.
Proof.
  intros Hc Hm.
  assert (Hcases : (c = 48 \/ c = 49 \/ c = 50 \/ c = 51 \/ c = 52
                    \/ c = 53 \/ c = 54 \/ c = 55 \/ c = 56 \/ c = 57
                    \/ c = 45)%N).
  { destruct Hc as [Hc | Hc]; [ | lia]. unfold between in Hc.
    apply andb_prop in Hc as [Hlo Hhi].
    apply N.leb_le in Hlo. apply N.leb_le in Hhi. lia. }
  cbn [scan_once].
  repeat (destruct Hcases as [Hcases | Hcases];
          [subst c; rewrite Hm; reflexivity | ]).
  subst c. rewrite Hm. reflexivity.
Qed.

Lemma json_dumps_head (v : value) :
  plain v = true ->
  exists c t, json_dumps v = c :: t
              /\ is_ws c = false /\ c <> 93%N /\ c <> 0xfeff%N.
Proof.
  destruct v as [ | [ | ] | z | f | s | l | d]; cbn [plain]; intros Hv;
    try discriminate Hv;
    try (eexists _, _; split; [reflexivity | ];
         split; [reflexivity | split; discriminate]).
  destruct (int_repr_head z) as (c & t & Heq & Hc).
  exists c, t. split; [exact Heq | ].
  destruct Hc as [Hc | ->]; [ | split; [reflexivity | split; discriminate]].
  unfold between in Hc. apply andb_prop in Hc as [Hlo Hhi].
  apply N.leb_le in Hlo. apply N.leb_le in Hhi.
  split; [ | split; lia].
  unfold is_ws.
  repeat (apply orb_false_intro); apply N.eqb_neq; lia.
Qed.

Lemma skip_ws_value (v : value) (rest : str) :
  plain v = true -> skip_ws (json_dumps v ++ rest) = json_dumps v ++ rest.
Proof.
  intros Hv. destruct (json_dumps_head v Hv) as (c & t & Heq & Hws & _).
  rewrite Heq. cbn [app skip_ws]. rewrite Hws. reflexivity.
Qed.

Lemma str_eqb_eq (a b : str) : str_eqb a b = true <-> a = b.
Proof.
  revert b. induction a as [ | x a IH]; intros [ | y b]; cbn [str_eqb];
    try (split; [discriminate | discriminate]); [tauto | ].
  rewrite andb_true_iff, N.eqb_eq, IH.
  split; [intros [-> ->]; reflexivity | intros H; inversion H; tauto].
Qed.

Lemma str_eqb_sym (a b : str) : str_eqb a b = str_eqb b a.
Proof.
  destruct (str_eqb a b) eqn:E1, (str_eqb b a) eqn:E2; trivial.
  - apply str_eqb_eq in E1. subst b.
    rewrite (proj2 (str_eqb_eq a a) eq_refl) in E2. discriminate.
  - apply str_eqb_eq in E2. subst b.
    rewrite (proj2 (str_eqb_eq a a) eq_refl) in E1. discriminate.
Qed.

Lemma dict_set_fresh (acc : dict) (k : str) (v : value) :
  existsb (str_eqb k) (map fst acc) = false ->
  dict_set acc k v = acc ++ [(k, v)].
Proof.
  induction acc as [ | [k' v'] acc IH]; cbn [map fst existsb dict_set app];
    [reflexivity | ].
  intros H. apply orb_false_elim in H as [Hk Hacc].
  rewrite Hk, (IH Hacc). reflexivity.
Qed.

Lemma fold_dict_set_distinct (d : dict) : forall acc : dict,
  distinct (map fst d) = true ->
  (forall k, In k (map fst d) -> existsb (str_eqb k) (map fst acc) = false) ->
  fold_left (fun a kv => dict_set a (fst kv) (snd kv)) d acc = acc ++ d.
Proof.
  induction d as [ | [k v] d IH]; intros acc Hd Hacc; cbn [fold_left fst snd].
  - rewrite app_nil_r. reflexivity.
  - cbn [map fst distinct] in Hd. apply andb_prop in Hd as [Hk Hd].
    apply negb_true_iff in Hk.
    rewrite dict_set_fresh by (apply Hacc; left; reflexivity).
    rewrite IH; [rewrite <- app_assoc; reflexivity | exact Hd | ].
    intros k' Hin. rewrite map_app, existsb_app.
    rewrite (Hacc k' (or_intror Hin)). cbn [map fst existsb orb].
    rewrite orb_false_r, str_eqb_sym.
    destruct (str_eqb k k') eqn:E; [ | reflexivity].
    exfalso. rewrite <- not_true_iff_false in Hk. apply Hk.
    apply existsb_exists. exists k'. split; trivial.
Qed.

Lemma dict_of_pairs_distinct (d : dict) :
  distinct (map fst d) = true -> dict_of_pairs d = d.
Proof.
  intros Hd. unfold dict_of_pairs.
  rewrite fold_dict_set_distinct; [reflexivity | exact Hd | reflexivity].
Qed.

Lemma join_cons (sep x : str) (parts : list str) (rest : str) :
  join sep (x :: parts) ++ rest
  = x ++ match parts with
         | [] => rest
         | _ :: _ => sep ++ join sep parts ++ rest
         end.
Proof.
  destruct parts as [ | y parts]; cbn [join]; [reflexivity | ].
  rewrite <- !app_assoc. reflexivity.
Qed.

Lemma array_items_dumps (l : list value) :
  forall (x : value) (acc : list value) (fuel : nat) (rest : str),
    Forall (fun y => plain y = true /\ scans_back y) (x :: l) ->
    array_items fuel acc
      (join (py ", ") (map json_dumps (x :: l)) ++ 93%N :: rest) = Deep
    \/ array_items fuel acc
         (join (py ", ") (map json_dumps (x :: l)) ++ 93%N :: rest)
       = Ok (VList (rev acc ++ x :: l)) rest.
Proof.
  induction l as [ | y l IH]; intros x acc fuel rest Hall;
    inversion Hall as [ | x0 l0 [Hplain Hback] Hrest]; subst x0 l0;
    cbn [map]; rewrite join_cons; cbv beta iota;
    (destruct fuel as [ | fuel]; [left; reflexivity | ]);
    cbn [array_items].
  - destruct (Hback fuel (93%N :: rest)) as [HD | HO];
      [split; [reflexivity | repeat split; discriminate]
      | rewrite HD; left; reflexivity | ].
    rewrite HO. right. reflexivity.
  - set (more := join (py ", ") (json_dumps y :: map json_dumps l)
                 ++ 93%N :: rest).
    destruct (Hback fuel (py ", " ++ more)) as [HD | HO];
      [split; [reflexivity | repeat split; discriminate]
      | rewrite HD; left; reflexivity | ].
    rewrite HO.
    change (py ", " ++ more) with (44%N :: 32%N :: more).
    cbn [skip_ws is_ws N.eqb Pos.eqb orb].
    assert (Hskip : skip_ws more = more).
    { unfold more. rewrite join_cons. apply skip_ws_value.
      inversion Hrest as [ | y0 l0 [Hy _] _]. exact Hy. }
    rewrite Hskip.
    destruct (IH y (x :: acc) fuel rest Hrest) as [HD | HO'].
    + left. exact HD.
    + right. unfold more. cbn [map] in HO'. rewrite HO'.
      cbn [rev]. rewrite <- app_assoc. reflexivity.
Qed.

Lemma items_text_head (d : dict) (k : str) (x : value) (rest : str) :
  exists s : str,
    join (py ", ") (map item_text ((k, x) :: d)) ++ rest = 34%N :: s.
Proof.
  cbn [map]. rewrite join_cons.
  unfold item_text at 1, encode_basestring_ascii. cbn [app].
  eexists. reflexivity.
Qed.

Lemma items_text_cons (d : dict) (k : str) (x : value) (rest : str) :
  join (py ", ") (map item_text ((k, x) :: d)) ++ rest
  = 34%N :: flat_map escape_char k
    ++ 34%N :: 58%N :: 32%N
       :: json_dumps x
       ++ match d with
          | [] => rest
          | kv :: d' =>
              44%N :: 32%N
              :: join (py ", ") (map item_text (kv :: d')) ++ rest
          end.
Proof.
  cbn [map]. rewrite join_cons.
  unfold item_text at 1, encode_basestring_ascii.
  destruct d as [ | kv d']; cbn [map]; rewrite <- !app_assoc; reflexivity.
Qed.

Lemma object_items_dumps (d : dict) :
  forall (k : str) (x : value) (pairs : list (str * value)) (fuel : nat)
         (rest s : str),
    Forall (fun kv => forallb scalar (fst kv) = true
                      /\ plain (snd kv) = true /\ scans_back (snd kv))
      ((k, x) :: d) ->
    34%N :: s = join (py ", ") (map item_text ((k, x) :: d)) ++ 125%N :: rest ->
    object_items fuel pairs s = Deep
    \/ object_items fuel pairs s
       = Ok (VDict (dict_of_pairs (rev pairs ++ (k, x) :: d))) rest.
Proof.
  induction d as [ | [k2 x2] d IH]; intros k x pairs fuel rest s Hall Hs;
    inversion Hall as [ | kv0 d0 (Hk & Hplain & Hback) Hrest]; subst kv0 d0;
    cbn [fst snd] in Hk, Hplain, Hback;
    rewrite items_text_cons in Hs.
  - injection Hs as Hs. subst s.
    destruct fuel as [ | fuel]; [left; reflexivity | ].
    cbn [object_items]. rewrite (scanstring_escaped _ _ Hk).
    cbn [skip_ws is_ws N.eqb Pos.eqb orb].
    rewrite (skip_ws_value _ _ Hplain).
    destruct (Hback fuel (125%N :: rest)) as [HD | HO];
      [split; [reflexivity | repeat split; discriminate]
      | rewrite HD; left; reflexivity | ].
    rewrite HO. right. reflexivity.
  - destruct (items_text_head d k2 x2 (125%N :: rest)) as [s3 Hs3].
    rewrite Hs3 in Hs. injection Hs as Hs. subst s.
    destruct fuel as [ | fuel]; [left; reflexivity | ].
    cbn [object_items]. rewrite (scanstring_escaped _ _ Hk).
    cbn [skip_ws is_ws N.eqb Pos.eqb orb].
    rewrite (skip_ws_value _ _ Hplain).
    destruct (Hback fuel (44%N :: 32%N :: 34%N :: s3)) as [HD | HO];
      [split; [reflexivity | repeat split; discriminate]
      | rewrite HD; left; reflexivity | ].
    rewrite HO.
    cbn [skip_ws is_ws N.eqb Pos.eqb orb].
    destruct (IH k2 x2 ((k, x) :: pairs) fuel rest s3 Hrest) as [HD | HO'].
    + symmetry. exact Hs3.
    + left. exact HD.
    + right. rewrite HO'. cbn [rev]. rewrite <- app_assoc. reflexivity.
Qed.

Lemma scan_once_dumps : forall v : value, plain v = true -> scans_back v.
Proof.
  fix IH 1.
  intros v Hv fuel rest Hrest.
  destruct fuel as [ | fuel]; [left; reflexivity | ].
  destruct v as [ | [ | ] | z | f | s | l | d].
  - right. destruct rest; reflexivity.
  - right. destruct rest; reflexivity.
  - right. destruct rest; reflexivity.
  - right. pose proof (@match_number_int_repr z rest Hrest) as Hm.
    destruct (int_repr_head z) as (c & t & Heq & Hc).
    cbn [json_dumps]. rewrite Heq in *. cbn [app] in *.
    apply scan_once_number; assumption.
  - discriminate Hv.
  - right. cbn [json_dumps plain] in *. unfold encode_basestring_ascii.
    cbn [app]. rewrite <- app_assoc. cbn [app scan_once N.eqb Pos.eqb].
    rewrite (scanstring_escaped _ _ Hv). reflexivity.
  - destruct l as [ | x l]; [right; reflexivity | ].
    assert (Hall : Forall (fun y => plain y = true /\ scans_back y) (x :: l)).
    { cbn [plain] in Hv. revert Hv. generalize (x :: l) as l0.
      induction l0 as [ | y l0 IHl]; intros Hv; constructor.
      - cbn [forallb] in Hv. apply andb_prop in Hv as [Hy _].
        split; [exact Hy | apply IH; exact Hy].
      - apply IHl. cbn [forallb] in Hv. apply andb_prop in Hv as [_ Hl].
        exact Hl. }
    cbn [json_dumps]. cbn [app]. rewrite <- app_assoc. cbn [app].
    assert (Hx : plain x = true)
      by (inversion Hall as [ | y0 l0 [Hy _] _]; exact Hy).
    destruct (json_dumps_head x Hx) as (c & t & Heq & Hws & Hclose & _).
    assert (Htext : exists t',
               join (py ", ") (map json_dumps (x :: l)) ++ 93%N :: rest
               = c :: t').
    { cbn [map]. rewrite join_cons, Heq. cbn [app]. eexists. reflexivity. }
    destruct Htext as [t' Htext].
    destruct (@array_items_dumps l x [] fuel rest Hall) as [HD | HO];
      rewrite Htext in *; cbn [scan_once N.eqb Pos.eqb skip_ws];
      rewrite Hws;
      replace (c =? 93)%N with false
        by (symmetry; apply N.eqb_neq; exact Hclose).
    + left. exact HD.
    + right. exact HO.
  - change (json_dumps (VDict d))
      with ([123%N] ++ join (py ", ") (map item_text d) ++ [125%N]).
    destruct d as [ | [k x] d]; [right; reflexivity | ].
    cbn [plain] in Hv. apply andb_prop in Hv as [Hkeys Hv].
    assert (Hall : Forall (fun kv => forallb scalar (fst kv) = true
                                     /\ plain (snd kv) = true
                                     /\ scans_back (snd kv))
                     ((k, x) :: d)).
    { clear Hkeys. revert Hv. generalize ((k, x) :: d) as d0.
      induction d0 as [ | [k0 x0] d0 IHd]; intros Hv; constructor.
      - cbn [forallb] in Hv. apply andb_prop in Hv as [Hkx _].
        apply andb_prop in Hkx as [Hk0 Hx0]. cbn [fst snd].
        split; [exact Hk0 | split; [exact Hx0 | apply IH; exact Hx0]].
      - apply IHd. cbn [forallb] in Hv. apply andb_prop in Hv as [_ Hd].
        exact Hd. }
    cbn [app]. rewrite <- app_assoc. cbn [app].
    destruct (items_text_head d k x (125%N :: rest)) as [s0 Hs0].
    destruct (@object_items_dumps d k x [] fuel rest s0 Hall
                (eq_sym Hs0)) as [HD | HO];
      rewrite Hs0; cbn [scan_once N.eqb Pos.eqb skip_ws is_ws orb].
    + left. exact HD.
    + right. rewrite HO. cbn [rev app].
      rewrite (dict_of_pairs_distinct _ Hkeys). reflexivity.
Qed.

Lemma json_loads_dumps (v : value) :
  plain v = true -> json_loads (json_dumps v ++ [10%N]) = Returned v.
Proof.
  intros Hv. unfold json_loads.
  rewrite (skip_ws_value v [10%N] Hv).
  destruct (json_dumps_head v Hv) as (c & t & Heq & _ & _ & Hbom).
  assert (Hstart : startswith (json_dumps v ++ [10%N]) [0xfeff%N] = false).
  { rewrite Heq. cbn [app startswith].
    replace (0xfeff =? c)%N with false
      by (symmetry; apply N.eqb_neq; congruence).
    reflexivity. }
  rewrite Hstart.
  destruct (scan_once_dumps v Hv
              (2 * List.length (json_dumps v ++ [10%N]) + 1) [10%N])
    as [HD | HO].
  - split; [reflexivity | repeat split; discriminate].
  - exfalso. revert HD. apply (proj1 (scan_fuel _)). lia.
  - rewrite HO. reflexivity.
Qed.

Lemma decode_response_wire (v : value) :
  plain v = true -> decode_response (wire v) = Returned v.
Proof.
  intros Hv. unfold decode_response, wire, bytes_decode.
  change [x0a] with (map byte_of_N [10%N]).
  rewrite <- map_app, utf8_decode_ascii.
  - cbn [rbind]. apply json_loads_dumps, Hv.
  - apply Forall_app; split.
    + eapply Forall_impl; [ | apply json_dumps_printable].
      unfold printable. intros; lia.
    + constructor; [lia | constructor].
Qed.

(** X18.  The line send_request writes decodes, by the decoder the client
    itself uses, to the request it was made from: "jsonrpc", the id, the
    method and the params come back as they were.  This holds when the
    method and the params hold no float and no surrogate code point and no
    mapping has two equal keys (and stay within the interpreter's limits on
    nesting and on the digits of an integer, which are not modelled). *)
Theorem request_line_round_trip
  (self : MCPClient) (p : Process) (method : str) (params : dict)
  (answer : reply) :
  process self = Some p ->
  finished p = false ->
  forallb scalar method = true ->
  plain (VDict params) = true ->
  exists line : bytes,
    snd (send_request method params answer self) = [Write line]
    /\ decode_response line
       = Returned
           (VDict [(py "jsonrpc", VStr (py "2.0"));
                   (py "id", VInt (request_id self + 1));
                   (py "method", VStr method);
                   (py "params", VDict params)]).
Proof.
  intros Hp Hf Hmethod Hparams.
  exists (wire (envelope (request_id self + 1) method params)). split.
  - rewrite (@send_request_running self p method params answer Hp Hf).
    reflexivity.
  - apply decode_response_wire.
    unfold envelope. cbn [plain forallb map fst] in *.
    rewrite Hmethod, Hparams. reflexivity.
Qed.

End Client.

Arguments Raised {FL A} e.
Arguments Pending {FL A}.
Arguments Fail {A}.
Arguments Deep {A}.

Existing Instance unit_float.

(** ** The claims on the exchanges of the demo *)

(** C1 on a run: a call before any start (no handle, no id), a start and
    a call, stop_server and a call on the stopped child (id 2 is spent and
    nothing is written), a new start and a call (id 3). *)
Lemma request_ids_strictly_increasing_witness :
  let calls :=
    [SendRequest (py "tools/list") [] (says line_57);
     StartServer (Returned fresh);
     CallTool (py "random_int") low_high (says line_57);
     StopServer;
     CallTool (py "random_int") low_high (says line_57);
     StartServer (Returned fresh);
     SendRequest (py "tools/list") [] (says line_57)] in
  map id_of (requests_of (steps calls __init__)) = [1; 2; 3]%Z
  /\ request_id (fst (run calls __init__)) = 3%Z
  /\ NoDup (map id_of (requests_of (steps calls __init__)))
  /\ writes (snd (run calls __init__))
     = [wire_of (1%Z, py "tools/call",
                 tool_params (py "random_int") low_high);
        wire_of (3%Z, py "tools/list", [])].
Proof.
  intros calls.
  pose proof (@request_ids_strictly_increasing unit_float calls __init__)
    as H.
  cbv zeta in H. destruct H as (Hids & Hcount & _ & Hnodup & _ & Hw).
  split; [ | split; [ | split]].
  - rewrite Hids. vm_compute. reflexivity.
  - rewrite Hcount. vm_compute. reflexivity.
  - exact Hnodup.
  - rewrite Hw. vm_compute. reflexivity.
Defined.

(** C2 on the scenario of the empty population: the error answer raises,
    the next call gets id 2 and returns its text. *)
Lemma error_response_raises_tool_error_witness :
  call_tool (py "random_choices") [(py "population", VList [])]
    (says line_error) started
  = (Raised (ToolException
               (VDict [(py "message",
                        VStr (py "population must be non-empty"))])),
     {| process := Some fresh; request_id := 1 |},
     [Write (wire (envelope 1 (py "tools/call")
                     (tool_params (py "random_choices")
                        [(py "population", VList [])])))])
  /\ call_tool (py "random_int") low_high (says line_57)
       {| process := Some fresh; request_id := 1 |}
     = (Returned (VStr (py "57")),
        {| process := Some fresh; request_id := 2 |},
        [Write (wire (envelope 2 (py "tools/call")
                        (tool_params (py "random_int") low_high)))]).
Proof.
  destruct (@error_response_raises_tool_error unit_float started fresh fresh
              (py "random_choices") [(py "population", VList [])]
              (says line_error) (ascii_bytes line_error ++ [x0a])
              [(py "error",
                VDict [(py "message",
                        VStr (py "population must be non-empty"))])]
              (VDict [(py "message",
                       VStr (py "population must be non-empty"))])
              eq_refl eq_refl eq_refl eq_refl eq_refl)
    as (Hfirst & _ & Hnext).
  split; [exact Hfirst | ].
  apply (Hnext (py "random_int") low_high (says line_57)
           (ascii_bytes line_57 ++ [x0a]) fresh
           [(py "result",
             VDict [(py "content",
                     VList [VDict [(py "text", VStr (py "57"))]])])]
           [(py "content", VList [VDict [(py "text", VStr (py "57"))]])]
           [(py "text", VStr (py "57"))] [] (VStr (py "57")));
    reflexivity.
Defined.

(** C3 as stated fails: the answer has neither "error" nor "result", and
    call_tool returns None instead of failing. *)
Lemma missing_result_returns_none :
  decode_response (ascii_bytes line_no_result ++ [x0a])
  = Returned (VDict [(py "jsonrpc", VStr (py "2.0")); (py "id", VInt 1)])
  /\ fst (fst (call_tool (py "random_int") low_high (says line_no_result)
                 started))
     = Returned VNone.
Proof.
  split; vm_compute; reflexivity.
Qed.

Lemma missing_fields_yield_none_witness :
  fst (fst (call_tool (py "random_int") low_high (says line_no_result)
              started))
  = Returned VNone.
Proof.
  apply (@missing_fields_yield_none unit_float started fresh fresh
           (py "random_int") low_high (says line_no_result)
           (ascii_bytes line_no_result ++ [x0a])
           [(py "jsonrpc", VStr (py "2.0")); (py "id", VInt 1)]
           eq_refl eq_refl eq_refl eq_refl eq_refl).
  left. reflexivity.
Defined.







(** C7 on the scenario of the random integer. *)
Lemma call_tool_returns_first_text_witness :
  fst (fst (call_tool (py "random_int") low_high (says line_57) started))
  = Returned (VStr (py "57")).
Proof.
  apply (@call_tool_returns_first_text unit_float started fresh fresh
           (py "random_int") low_high (says line_57)
           (ascii_bytes line_57 ++ [x0a])
           [(py "result",
             VDict [(py "content",
                     VList [VDict [(py "text", VStr (py "57"))]])])]
           [(py "content", VList [VDict [(py "text", VStr (py "57"))]])]
           [(py "text", VStr (py "57"))] [] (py "57"));
    reflexivity.
Defined.


(** C9 on an answer whose id is 999 while the request had id 1. *)
Lemma response_id_never_checked_witness :
  fst (fst (send_request (py "tools/call")
              (tool_params (py "random_int") low_high)
              (says line_other_id) started))
  = Returned
      (VDict [(py "jsonrpc", VStr (py "2.0"));
              (py "id", VInt 999);
              (py "result",
               VDict [(py "content",
                       VList [VDict [(py "text", VStr (py "57"))]])])]).
Proof.
  destruct (@response_id_never_checked unit_float started fresh fresh
              (py "tools/call") (tool_params (py "random_int") low_high)
              (says line_other_id) (ascii_bytes line_other_id ++ [x0a])
              eq_refl eq_refl eq_refl) as [Hr _].
  rewrite Hr. reflexivity.
Defined.

(** C10 on an answer with an empty content list. *)
Lemma empty_content_raises_index_error_witness :
  fst (fst (call_tool (py "random_int") low_high (says line_empty_content)
              started))
  = Raised IndexError.
Proof.
  apply (@empty_content_raises_index_error unit_float started fresh fresh
           (py "random_int") low_high (says line_empty_content)
           (ascii_bytes line_empty_content ++ [x0a])
           [(py "result", VDict [(py "content", VList [])])]
           [(py "content", VList [])]);
    reflexivity.
Defined.

(** ** The further properties on examples *)

(** The line of 57 is an answer [call_tool] returns from. *)
Lemma says_57_well : answers_well (says line_57).
Proof.
  split; [split; [reflexivity | split; [reflexivity | ]] | ].
  - vm_compute. discriminate.
  - exists (VStr (py "57")). reflexivity.
Defined.




(** X2 on the first call of the demo. *)
Lemma call_tool_writes_once_witness :
  snd (call_tool (py "random_int") low_high (says line_error) started)
  = [Write
       (ascii_bytes
          (quoted
             "{'jsonrpc': '2.0', 'id': 1, 'method': 'tools/call', 'params': {'name': 'random_int', 'arguments': {'low': 1, 'high': 100}}}")
        ++ [x0a])].
Proof.
  rewrite (@call_tool_writes_once unit_float started fresh (py "random_int")
             low_high (says line_error) eq_refl eq_refl eq_refl).
  reflexivity.
Defined.

(** X3 on the answer null. *)
Lemma non_mapping_response_fails_witness :
  fst (fst (call_tool (py "random_int") low_high (says line_null) started))
  = Raised TypeError.
Proof.
  apply (@non_mapping_response_fails unit_float started fresh fresh
           (py "random_int") low_high (says line_null)
           (ascii_bytes line_null ++ [x0a]) VNone
           eq_refl eq_refl eq_refl eq_refl).
  intros d H. discriminate H.
Defined.

(** X4 on a null result and on a content that is a string. *)
Lemma wrong_typed_fields_raise_witness :
  fst (fst (call_tool (py "random_int") low_high (says line_null_result)
              started))
  = Raised AttributeError
  /\ fst (fst (call_tool (py "random_int") low_high
                 (says line_text_content) started))
     = Raised AttributeError.
Proof.
  split.
  - apply (proj1 (@wrong_typed_fields_raise unit_float started fresh fresh
                    (py "random_int") low_high (says line_null_result)
                    (ascii_bytes line_null_result ++ [x0a])
                    [(py "result", VNone)]
                    eq_refl eq_refl eq_refl eq_refl eq_refl) VNone eq_refl).
    intros r H. discriminate H.
  - apply (proj2 (@wrong_typed_fields_raise unit_float started fresh fresh
                    (py "random_int") low_high (says line_text_content)
                    (ascii_bytes line_text_content ++ [x0a])
                    [(py "result", VDict [(py "content", VStr (py "abc"))])]
                    eq_refl eq_refl eq_refl eq_refl eq_refl)
             [(py "content", VStr (py "abc"))] (VStr (py "abc"))
             eq_refl eq_refl).
Defined.

(** X5: the child sends the line of 57 and then the error line in answer to
    the first request; the second request, answered by the line of 57, gets
    the error line. *)
Lemma extra_line_answers_next_request_witness :
  fst (fst (send_request (py "tools/call")
              (tool_params (py "random_int") low_high) (says line_57)
              (snd (fst (send_request (py "tools/call")
                           (tool_params (py "random_int") low_high)
                           {| emitted := (ascii_bytes line_57 ++ [x0a])
                                         ++ (ascii_bytes line_error ++ [x0a]);
                              exits := false |}
                           started)))))
  = Returned
      (VDict [(py "error",
               VDict [(py "message",
                       VStr (py "population must be non-empty"))])]).
Proof.
  destruct (@extra_line_answers_next_request unit_float started fresh
              (py "tools/call") (py "tools/call")
              (tool_params (py "random_int") low_high)
              (tool_params (py "random_int") low_high)
              (ascii_bytes line_57 ++ [x0a])
              (ascii_bytes line_error ++ [x0a]) (says line_57)
              eq_refl eq_refl eq_refl eq_refl eq_refl) as [_ H].
  - vm_compute. discriminate.
  - vm_compute. discriminate.
  - rewrite H. reflexivity.
Defined.

Lemma split_line_letters (n : nat) :
  split_line (repeat x61 n ++ [x0a]) = Some (repeat x61 n ++ [x0a], []).
Proof.
  induction n as [ | n IH]; [reflexivity | ].
  cbn [repeat app split_line]. rewrite IH. reflexivity.
Qed.

(** X6 on a line of 65537 letters. *)
Lemma oversized_line_raises_value_error_witness :
  fst (fst (send_request (py "tools/call")
              (tool_params (py "random_int") low_high)
              {| emitted := long_line ++ []; exits := false |} started))
  = Raised ValueError
  /\ request_id
       (snd (fst (send_request (py "tools/call")
                    (tool_params (py "random_int") low_high)
                    {| emitted := long_line ++ []; exits := false |}
                    started)))
     = 1%Z.
Proof.
  apply (@oversized_line_raises_value_error unit_float started fresh
           (py "tools/call") (tool_params (py "random_int") low_high)
           {| emitted := long_line ++ []; exits := false |} long_line []
           eq_refl eq_refl eq_refl eq_refl).
  - apply split_line_letters.
  - unfold long_line, stream_limit.
    rewrite length_app, repeat_length. cbn [List.length].
    rewrite Nat.add_sub, N2Nat.id. reflexivity.
  - reflexivity.
Defined.

(** X7: stop, start again, call: the request has id 1 after none, or 6 after
    five. *)
Lemma restart_continues_ids_witness :
  call_tool (py "random_int") low_high (says line_57)
    (snd (fst (start_server (Returned fresh)
                 (snd (fst (stop_server (running_at 5)))))))
  = (Returned (VStr (py "57")), running_at 6,
     [Write (wire_of (6%Z, py "tools/call",
                      tool_params (py "random_int") low_high))]).
Proof.
  rewrite (@restart_continues_ids unit_float (running_at 5) fresh
             (py "random_int") low_high (says line_57) eq_refl eq_refl
             (proj1 says_57_well)).
  reflexivity.
Defined.









(** X16: the child exits without a byte, and the empty line is no JSON
    text. *)
Lemma send_request_raises_only_witness :
  fst (fst (send_request (py "tools/list") [] (dies_after []) started))
  = Raised JSONDecodeError
  /\ ((process started = None
       /\ JSONDecodeError = RuntimeError (py "Server not started"))
      \/ ((exists p : Process,
              process started = Some p /\ finished p = true)
          /\ JSONDecodeError = ConnectionResetError)
      \/ ((exists p : Process,
              process started = Some p /\ finished p = false)
          /\ (JSONDecodeError = ValueError
              \/ JSONDecodeError = UnicodeDecodeError
              \/ JSONDecodeError = JSONDecodeError
              \/ JSONDecodeError = RecursionError))).
Proof.
  split; [reflexivity | ].
  apply (@send_request_raises_only unit_float started (py "tools/list") []
           (dies_after []) JSONDecodeError); reflexivity.
Defined.

(** X17: a result whose content is the empty list. *)
Lemma call_tool_raises_only_witness :
  fst (fst (call_tool (py "random_int") low_high (says line_empty_content)
              started))
  = Raised IndexError
  /\ (fst (fst (send_request (py "tools/call")
                  (tool_params (py "random_int") low_high)
                  (says line_empty_content) started))
      = Raised IndexError
      \/ (exists payload : value, IndexError = ToolException payload)
      \/ IndexError = TypeError \/ IndexError = AttributeError
      \/ IndexError = IndexError \/ IndexError = KeyError).
Proof.
  split; [reflexivity | ].
  apply (@call_tool_raises_only unit_float started (py "random_int") low_high
           (says line_empty_content) IndexError).
  reflexivity.
Defined.

(** X18 on the first request of the demo. *)
Lemma request_line_round_trip_witness :
  exists line : bytes,
    snd (send_request (py "tools/call")
           (tool_params (py "random_int") low_high) (says line_57) started)
    = [Write line]
    /\ decode_response line
       = Returned
           (VDict [(py "jsonrpc", VStr (py "2.0"));
                   (py "id", VInt 1);
                   (py "method", VStr (py "tools/call"));
                   (py "params",
                    VDict (tool_params (py "random_int") low_high))]).
Proof.
  apply (@request_line_round_trip unit_float started fresh (py "tools/call")
           (tool_params (py "random_int") low_high) (says line_57)
           eq_refl eq_refl eq_refl eq_refl).
Defined.
